(** * Contrastive data wrapper and runner of catalyst: a shallow embedding

    Sources embedded here:
    - [catalyst/contrib/data/datawrappers/contrastive_dataset.py]
      (class [ContrastiveDataset]);
    - [catalyst/runners/contrastive.py]
      (classes [IContrastiveRunner] and [ContrastiveRunner]).

    Python dictionaries with string keys are [gmap string _]; the
    [OrderedDict] of callbacks, whose order matters, is an association
    list.  Calls into collaborators (base dataset, transforms, model) may
    raise and may be stochastic or stateful, so they live in a small
    state-and-exception monad over an abstract [World]. *)

From stdpp Require Import gmap strings list fin_maps.

Local Open Scope string_scope.
Local Open Scope list_scope.
Local Open Scope nat_scope.
Set Warnings "-register-all,-clear-no-such-hyp".

(** ** Python values and exceptions *)

(** The values that flow through batches.  A tensor with at least one
    dimension is the list of its slices along dimension 0 (this is what
    iterating it yields); [VScalar] is a 0-d tensor. *)
Inductive value : Type :=
| VNone
| VInt (n : Z)
| VStr (s : string)
| VTuple (items : list value)
| VList (items : list value)
| VTensor (rows : list value)
| VScalar (x : Z).

(** Exceptions by their Python class.  [Raised] stands for whatever a
    collaborator (dataset, transform, model) raises on its own. *)
Inductive exn : Type :=
| ValueError (msg : string)
| TypeError (msg : string)
| AssertionError
| KeyError (key : string)
| Raised (what : string).

Inductive result (A : Type) : Type :=
| Ok (a : A)
| Raise (e : exn).
Arguments Ok {A} a.
Arguments Raise {A} e.

Definition is_Ok {A} (r : result A) : bool :=
  match r with Ok _ => true | Raise _ => false end.

(** What [iter(v)] yields, or [None] when [v] is not iterable. *)
Definition iter (v : value) : option (list value) :=
  match v with
  | VTuple items | VList items | VTensor items => Some items
  | VStr s => Some ((fun c => VStr (String c EmptyString)) <$> String.list_ascii_of_string s)
  | VNone | VInt _ | VScalar _ => None
  end.

(** The assignment [a, b = v]: any iterable of exactly two items is
    accepted. *)
Definition unpack2 (v : value) : result (value * value) :=
  match iter v with
  | None => Raise (TypeError "cannot unpack non-iterable object")
  | Some [a; b] => Ok (a, b)
  | Some ([] | [_]) => Raise (ValueError "not enough values to unpack (expected 2)")
  | Some (_ :: _ :: _ :: _) => Raise (ValueError "too many values to unpack (expected 2)")
  end.

(** The exceptions the tuple assignment itself raises. *)
Definition is_unpack_error (e : exn) : bool :=
  match e with
  | TypeError "cannot unpack non-iterable object"
  | ValueError "not enough values to unpack (expected 2)"
  | ValueError "too many values to unpack (expected 2)" => true
  | _ => false
  end.

(** A dict display [{k1: v1, ..., kn: vn}]: entries are stored left to
    right, a repeated key keeps the last value.  [dict_update d kvs] is
    [{**d, k1: v1, ..., kn: vn}]. *)
Definition dict_update (d : gmap string value) (kvs : list (string * value))
  : gmap string value :=
  foldl (fun m kv => <[kv.1 := kv.2]> m) d kvs.

Definition dict_display (kvs : list (string * value)) : gmap string value :=
  dict_update ∅ kvs.

(** [d[k]] *)
Definition dict_getitem (d : gmap string value) (k : string) : result value :=
  match d !! k with
  | Some v => Ok v
  | None => Raise (KeyError k)
  end.

(** ** Calls into collaborators *)

Section Effects.
Context {World : Type}.

Definition M (A : Type) : Type := World -> result A * World.

Definition ret {A} (a : A) : M A := fun w => (Ok a, w).

Definition bind {A B} (k : A -> M B) (c : M A) : M B :=
  fun w =>
    match c w with
    | (Ok a, w') => k a w'
    | (Raise e, w') => (Raise e, w')
    end.

(** A computation that cannot touch the world. *)
Definition lift {A} (r : result A) : M A := fun w => (r, w).

#[global] Instance M_ret : MRet M := @ret.
#[global] Instance M_bind : MBind M := @bind.
End Effects.
Arguments M World A : clear implicits.

(** A Python callable of one argument. *)
Definition Callable (World : Type) : Type := value -> M World value.

(** A [torch.utils.data.Dataset]. *)
Record Dataset (World : Type) : Type := mkDataset {
  ds_len : nat;
  ds_getitem : value -> M World value;
}.
Arguments mkDataset {World}.
Arguments ds_len {World}.
Arguments ds_getitem {World}.

(** ** class ContrastiveDataset *)

Module ContrastiveDataset.
Section Class.
Context {World : Type}.

Record t : Type := mk {
  transform_right : Callable World;
  transform_left : Callable World;
  dataset : Dataset World;
}.

Definition __init__ (dataset : Dataset World)
    (transforms transform_left transform_right : option (Callable World))
  : result t :=
  match transform_right, transform_left with
  | Some tr, Some tl =>
      Ok {| transform_right := tr; transform_left := tl; dataset := dataset |}
  | _, _ =>
      match transforms with
      | Some tf =>
          Ok {| transform_right := tf; transform_left := tf; dataset := dataset |}
      | None =>
          Raise (ValueError
            "Specify transforms or transform_left and transform_right simultaneously.")
      end
  end.

Definition __len__ (self : t) : nat := ds_len (dataset self).

Definition __getitem__ (self : t) (idx : value) : M World (gmap string value) :=
  item ← ds_getitem (dataset self) idx;
  '(sample, target) ← lift (unpack2 item);
  aug_1 ← transform_left self sample;
  aug_2 ← transform_right self sample;
  mret (dict_display [("aug1", aug_1); ("aug2", aug_2); ("target", target)]).
End Class.
Arguments t World : clear implicits.
End ContrastiveDataset.

(** ** class IContrastiveRunner *)

(** A batch as the loader hands it over: a flat tuple or list, or a
    mapping from keys to values. *)
Inductive Batch : Type :=
| Flat (items : list value)
| Keyed (d : gmap string value).

(** The f-strings [f"{prefix}_left"] and [f"{prefix}_right"]. *)
Definition key_left (prefix : string) : string := prefix +:+ "_left".
Definition key_right (prefix : string) : string := prefix +:+ "_right".

Module IContrastiveRunner.
Section Class.
Context {World : Type}.

Record t : Type := mk {
  _target_key : string;
  _loss_key : string;
  _projection_prefix : string;
  _augemention_prefix : string;
  _embedding_prefix : string;
  model : Callable World;
  batch : Batch;
}.

Definition __init__ (model : Callable World) (batch : Batch)
    (target_key loss_key augemention_prefix projection_prefix embedding_prefix : string)
  : t :=
  {| _target_key := target_key;
     _loss_key := loss_key;
     _projection_prefix := projection_prefix;
     _augemention_prefix := augemention_prefix;
     _embedding_prefix := embedding_prefix;
     model := model;
     batch := batch |}.

Definition set_batch (self : t) (b : Batch) : t :=
  {| _target_key := _target_key self;
     _loss_key := _loss_key self;
     _projection_prefix := _projection_prefix self;
     _augemention_prefix := _augemention_prefix self;
     _embedding_prefix := _embedding_prefix self;
     model := model self;
     batch := b |}.

(** [assert len(batch) == 3] raises [AssertionError]; once it passed,
    [batch[0]], [batch[1]] and [batch[2]] are the three items. *)
Definition _process_batch (self : t) (batch : Batch) : result Batch :=
  match batch with
  | Flat items =>
      match items with
      | [b0; b1; b2] =>
          Ok (Keyed (dict_display
                [(key_left (_augemention_prefix self), b0);
                 (key_right (_augemention_prefix self), b1);
                 (_target_key self, b2)]))
      | _ => Raise AssertionError
      end
  | Keyed d => Ok (Keyed d)
  end.

Definition _process_input (self : t) (batch : gmap string value)
  : M World (gmap string value) :=
  x1 ← lift (dict_getitem batch (key_left (_augemention_prefix self)));
  out1 ← model self x1;
  '(embedding1, projection1) ← lift (unpack2 out1);
  x2 ← lift (dict_getitem batch (key_right (_augemention_prefix self)));
  out2 ← model self x2;
  '(embedding2, projection2) ← lift (unpack2 out2);
  mret (dict_update batch
          [(key_left (_projection_prefix self), projection1);
           (key_right (_projection_prefix self), projection2);
           (key_left (_embedding_prefix self), embedding1);
           (key_right (_embedding_prefix self), embedding2)]).

(** [self.batch = self._process_batch(self.batch)], then
    [super().on_batch_start(runner)].  The parent's hook,
    [IRunner.on_batch_start], lives outside these sources and is taken as
    a parameter: it receives the runner with the new batch and the world,
    may change both and may raise.  When normalization raises, nothing is
    assigned and the parent's hook is not reached; when the parent's hook
    raises, the batch has already been replaced. *)
Definition on_batch_start
    (super_on_batch_start : t → World → result unit * t * World)
    (self : t) (w : World) : result unit * t * World :=
  match _process_batch self (batch self) with
  | Ok b => super_on_batch_start (set_batch self b) w
  | Raise e => (Raise e, self, w)
  end.

Definition forward (self : t) (batch : gmap string value)
  : M World (gmap string value) :=
  _process_input self batch.

(** [self.batch = {**batch, **self.forward(batch)}].  The runner after
    the call is returned next to the outcome: when [forward] raises the
    assignment never happens and the runner is the one before. *)
Definition handle_batch (self : t) (batch : gmap string value) (w : World)
  : result unit * t * World :=
  match forward self batch w with
  | (Ok out, w') => (Ok tt, set_batch self (Keyed (out ∪ batch)), w')
  | (Raise e, w') => (Raise e, self, w')
  end.
End Class.
Arguments t World : clear implicits.
End IContrastiveRunner.

(** ** class ContrastiveRunner *)

(** The interfaces a callback may implement. *)
Inductive ICallback : Type :=
| ICriterionCallback
| IOptimizerCallback
| ISchedulerCallback.

Definition ICallback_eqb (a b : ICallback) : bool :=
  match a, b with
  | ICriterionCallback, ICriterionCallback
  | IOptimizerCallback, IOptimizerCallback
  | ISchedulerCallback, ISchedulerCallback => true
  | _, _ => false
  end.

(** The three default callback classes with their constructor arguments,
    and [UserCallback] for any other callback class, given by its name
    and the interfaces it implements. *)
Inductive Callback : Type :=
| CriterionCallback (input_key target_key metric_key : string)
| OptimizerCallback (metric_key : string)
| SchedulerCallback (loader_key metric_key : option string)
| UserCallback (name : string) (implements : list ICallback).

(** Modelled from the spec: [callback_isinstance] of
    [catalyst.core.misc] is not among the sources; it is the capability
    check "does this callback declare that role".  The default classes
    implement the interface of their own role. *)
Definition callback_isinstance (x : Callback) (callback_fn : ICallback) : bool :=
  match x with
  | CriterionCallback _ _ _ => ICallback_eqb callback_fn ICriterionCallback
  | OptimizerCallback _ => ICallback_eqb callback_fn IOptimizerCallback
  | SchedulerCallback _ _ => ICallback_eqb callback_fn ISchedulerCallback
  | UserCallback _ implements => existsb (ICallback_eqb callback_fn) implements
  end.

(** What may sit in the runner's [_criterion], [_optimizer] and
    [_scheduler] attributes, by the class the [isinstance] tests see. *)
Inductive component : Type :=
| Criterion (name : string)
| Optimizer (name : string)
| Scheduler (name : string)
| ReduceLROnPlateau
| OtherObject.

Definition is_Criterion (c : option component) : bool :=
  match c with Some (Criterion _) => true | _ => false end.
Definition is_Optimizer (c : option component) : bool :=
  match c with Some (Optimizer _) => true | _ => false end.
Definition is_Scheduler_or_Plateau (c : option component) : bool :=
  match c with Some (Scheduler _) | Some ReduceLROnPlateau => true | _ => false end.

(** An [OrderedDict[str, Callback]]: keys in insertion order.
    [od_setitem k v d] is [d[k] = v]: an existing key keeps its place and
    gets the new value, a new key goes to the end. *)
Fixpoint od_setitem (k : string) (v : Callback) (d : list (string * Callback))
  : list (string * Callback) :=
  match d with
  | [] => [(k, v)]
  | (k', v') :: d' =>
      if String.eqb k' k then (k, v) :: d' else (k', v') :: od_setitem k v d'
  end.

Definition od_values (d : list (string * Callback)) : list Callback := d.*2.
Definition od_keys (d : list (string * Callback)) : list string := d.*1.

Module ContrastiveRunner.
Section Class.
Context {World : Type}.

Record t : Type := mk {
  base : IContrastiveRunner.t World;
  _criterion : option component;
  _optimizer : option component;
  _scheduler : option component;
  _valid_loader : option string;
  _valid_metric : option string;
}.

Definition is_callback_exists (callbacks : list (string * Callback))
    (callback_fn : ICallback) : bool :=
  existsb (fun x => callback_isinstance x callback_fn) (od_values callbacks).

(** [callbacks] is what [super().get_callbacks(stage)] returned: the
    callbacks registered by the caller. *)
Definition get_callbacks (self : t) (callbacks : list (string * Callback))
  : list (string * Callback) :=
  let callbacks :=
    if is_Criterion (_criterion self)
       && negb (is_callback_exists callbacks ICriterionCallback)
    then od_setitem "_criterion"
           (CriterionCallback
              (IContrastiveRunner._projection_prefix (base self) +:+ "_1")
              (IContrastiveRunner._projection_prefix (base self) +:+ "_2")
              (IContrastiveRunner._loss_key (base self)))
           callbacks
    else callbacks in
  let callbacks :=
    if is_Optimizer (_optimizer self)
       && negb (is_callback_exists callbacks IOptimizerCallback)
    then od_setitem "_optimizer"
           (OptimizerCallback (IContrastiveRunner._loss_key (base self)))
           callbacks
    else callbacks in
  let callbacks :=
    if is_Scheduler_or_Plateau (_scheduler self)
       && negb (is_callback_exists callbacks ISchedulerCallback)
    then od_setitem "_scheduler"
           (SchedulerCallback (_valid_loader self) (_valid_metric self))
           callbacks
    else callbacks in
  callbacks.
End Class.
Arguments t World : clear implicits.
End ContrastiveRunner.

(** ** The names of the specification's error taxonomy

    The sources raise Python's built-in exceptions; the specification
    names them by the role they play. *)

(** Raised by [ContrastiveDataset.__init__]. *)
Definition ConfigurationError : exn :=
  ValueError "Specify transforms or transform_left and transform_right simultaneously.".

(** Raised by the [assert] of [_process_batch]. *)
Definition ShapeError : exn := AssertionError.

(** Raised by the two-target assignment of [_process_input]. *)
Definition ContractViolationError (e : exn) : Prop := is_unpack_error e = true.

(** [iter(v)] yields exactly two items. *)
Definition two_items (v : value) : bool :=
  match iter v with
  | Some [_; _] => true
  | _ => false
  end.

(** The four keys [_process_input] writes. *)
Definition enrichment_keys (projection_prefix embedding_prefix : string) : list string :=
  [key_left projection_prefix; key_right projection_prefix;
   key_left embedding_prefix; key_right embedding_prefix].



Definition fixed_key (r : ICallback) : string :=
  match r with
  | ICriterionCallback => "_criterion"
  | IOptimizerCallback => "_optimizer"
  | ISchedulerCallback => "_scheduler"
  end.

Definition configured {World} (self : ContrastiveRunner.t World) (r : ICallback) : bool :=
  match r with
  | ICriterionCallback => is_Criterion (ContrastiveRunner._criterion self)
  | IOptimizerCallback => is_Optimizer (ContrastiveRunner._optimizer self)
  | ISchedulerCallback => is_Scheduler_or_Plateau (ContrastiveRunner._scheduler self)
  end.

(** A role calls for a default callback: its component is configured and
    no registered callback fills it. *)
Definition needs_default {World} (self : ContrastiveRunner.t World)
    (callbacks : list (string * Callback)) (r : ICallback) : bool :=
  configured self r && negb (ContrastiveRunner.is_callback_exists callbacks r).

(** The entries stage setup adds when the caller uses none of the fixed
    keys, each built the way [get_callbacks] builds it. *)
Definition auto_wired {World} (self : ContrastiveRunner.t World)
    (callbacks : list (string * Callback)) : list (string * Callback) :=
  (if needs_default self callbacks ICriterionCallback
   then [("_criterion",
          CriterionCallback
            (IContrastiveRunner._projection_prefix (ContrastiveRunner.base self) +:+ "_1")
            (IContrastiveRunner._projection_prefix (ContrastiveRunner.base self) +:+ "_2")
            (IContrastiveRunner._loss_key (ContrastiveRunner.base self)))]
   else [])
  ++ (if needs_default self callbacks IOptimizerCallback
      then [("_optimizer",
             OptimizerCallback (IContrastiveRunner._loss_key (ContrastiveRunner.base self)))]
      else [])
  ++ (if needs_default self callbacks ISchedulerCallback
      then [("_scheduler",
             SchedulerCallback (ContrastiveRunner._valid_loader self)
                               (ContrastiveRunner._valid_metric self))]
      else []).

#[global] Instance result_ret : MRet result := @Ok.
#[global] Instance result_bind : MBind result :=
  fun A B k r => match r with Ok a => k a | Raise e => Raise e end.

(** ** Inference and dictionary access *)

(** [d[k]] and [d.get(k)] on an [OrderedDict]: the entry under [k]. *)
Fixpoint od_get (k : string) (d : list (string * Callback)) : option Callback :=
  match d with
  | [] => None
  | (k', v') :: d' => if String.eqb k' k then Some v' else od_get k d'
  end.

(** [ContrastiveRunner.predict_batch].  [sync_device] is the engine's
    [sync_device], which lives outside these sources and is taken as a
    parameter.  [_process_batch] never hands back a flat batch; were it
    to, subscripting the tuple with a string key would raise. *)
Definition predict_batch {World} (sync_device : gmap string value → M World (gmap string value))
    (self : ContrastiveRunner.t World) (batch : Batch)
  : M World (gmap string value) :=
  batch ← lift (IContrastiveRunner._process_batch (ContrastiveRunner.base self) batch);
  match batch with
  | Keyed d =>
      d ← sync_device d;
      IContrastiveRunner.forward (ContrastiveRunner.base self) d
  | Flat _ =>
      lift (Raise (TypeError "tuple indices must be integers or slices, not str"))
  end.

(** ** Sample collaborators

    Concrete inputs on which the statements below are exercised.  The
    world of the samples is a call counter. *)

(** A base dataset of four samples with targets 0, 1, 0, 1. *)
Definition toy_dataset : Dataset nat :=
  mkDataset 4 (fun idx w =>
    match idx with
    | VInt i =>
        if bool_decide (0 ≤ i < 4)%Z
        then (Ok (VTuple [VTensor [VScalar i]; VInt (i mod 2)]), w)
        else (Raise (Raised "IndexError"), w)
    | _ => (Raise (Raised "TypeError"), w)
    end).

(** A stochastic augmentation: every call draws the next number. *)
Definition jitter : Callable nat :=
  fun x w => (Ok (VTuple [x; VInt (Z.of_nat w)]), S w).

Definition negate : Callable nat :=
  fun x w => (Ok (VTuple [VStr "neg"; x]), S w).

Definition identity : Callable nat :=
  fun x w => (Ok x, S w).

(** A model honouring the contract: it returns the tuple
    (embedding, projection). *)
Definition pair_model : Callable nat :=
  fun x w => (Ok (VTuple [VTuple [VStr "emb"; x]; VTuple [VStr "proj"; x]]), S w).

(** A model returning a single tensor, which happens to have two rows. *)
Definition tensor_model : Callable nat :=
  fun x w => (Ok (VTensor [VTensor [VScalar 1]; VTensor [VScalar 2]]), S w).

(** A model returning a list of two items instead of a tuple. *)
Definition list_model : Callable nat :=
  fun x w => (Ok (VList [VStr "emb"; VStr "proj"]), S w).

(** A model returning a single 0-d tensor. *)
Definition scalar_model : Callable nat :=
  fun x w => (Ok (VScalar 5), S w).

(** A model that honours the contract on its first call only. *)
Definition flaky_model : Callable nat :=
  fun x w =>
    match w with
    | O => (Ok (VTuple [VStr "emb"; VStr "proj"]), S w)
    | S _ => (Ok (VScalar 5), S w)
    end.

(** A runner with the default key names. *)
Definition default_runner (model : Callable nat) : IContrastiveRunner.t nat :=
  IContrastiveRunner.__init__ model (Keyed ∅)
    "target" "loss" "aug" "projection" "embedding".

Definition plain_batch : gmap string value :=
  dict_display [("aug_left", VInt 1); ("aug_right", VInt 2); ("target", VInt 0)].

(** A normalized batch that already holds a value under one of the keys
    the forward pass writes. *)
Definition colliding_batch : gmap string value :=
  dict_display [("aug_left", VInt 1); ("aug_right", VInt 2);
                ("projection_left", VInt 99)].

(** A runner with the default key names and the given components. *)
Definition contrastive_runner (criterion optimizer scheduler : option component)
  : ContrastiveRunner.t nat :=
  ContrastiveRunner.mk (default_runner pair_model)
    criterion optimizer scheduler (Some "valid") (Some "loss").

(** Two losses, each with its own criterion callback. *)
Definition two_criteria : list (string * Callback) :=
  [("loss_a", CriterionCallback "projection_left" "projection_right" "loss_a");
   ("loss_b", CriterionCallback "embedding_left" "embedding_right" "loss_b")].

(** A caller who named an own criterion callback "_optimizer". *)
Definition reserved_name_taken : list (string * Callback) :=
  [("_optimizer", UserCallback "MyCriterionCallback" [ICriterionCallback]);
   ("accuracy", UserCallback "AccuracyCallback" [])].

(** A caller who stored an own optimizer callback under "_criterion". *)
Definition optimizer_under_criterion_key : list (string * Callback) :=
  [("_criterion", UserCallback "MyOptimizerCallback" [IOptimizerCallback])].

Definition metric_only : list (string * Callback) :=
  [("accuracy", UserCallback "AccuracyCallback" [])].

(** A transform that always raises. *)
Definition failing : Callable nat :=
  fun x w => (Raise (Raised "RuntimeError"), S w).

(** A base dataset whose items are bare tensors, not (input, target). *)
Definition unlabelled_dataset : Dataset nat :=
  mkDataset 2 (fun idx w => (Ok (VTensor [VScalar 1; VScalar 2; VScalar 3]), w)).

(** A deterministic transform that leaves the world alone. *)
Definition flip : Callable nat :=
  fun x w => (Ok (VTuple [VStr "flip"; x]), w).

(** A deterministic model that leaves the world alone. *)
Definition frozen_model : Callable nat :=
  fun x w => (Ok (VTuple [VTuple [VStr "emb"; x]; VTuple [VStr "proj"; x]]), w).

(** A model that raises on its second call. *)
Definition crashing_model : Callable nat :=
  fun x w =>
    match w with
    | O => (Ok (VTuple [VStr "emb"; VStr "proj"]), S w)
    | S _ => (Raise (Raised "RuntimeError"), S w)
    end.

(** An engine on the host device: nothing is moved. *)
Definition cpu_sync : gmap string value → M nat (gmap string value) :=
  fun d w => (Ok d, w).

(** Runners whose target key is the key of a view. *)
Definition target_on_left_runner : IContrastiveRunner.t nat :=
  IContrastiveRunner.__init__ pair_model (Keyed ∅)
    "aug_left" "loss" "aug" "projection" "embedding".

Definition target_on_right_runner : IContrastiveRunner.t nat :=
  IContrastiveRunner.__init__ pair_model (Keyed ∅)
    "aug_right" "loss" "aug" "projection" "embedding".

(** A runner configured with one prefix for projections and embeddings. *)
Definition one_prefix_runner : IContrastiveRunner.t nat :=
  IContrastiveRunner.__init__ pair_model (Keyed ∅)
    "target" "loss" "aug" "features" "features".

(** A parent hook in the manner of [IRunner.on_batch_start]: it takes
    the length of the batch values, so each must have one, counts the
    step in the world and leaves the runner alone. *)
Definition sized_hook (s : IContrastiveRunner.t nat) (w : nat)
  : result unit * IContrastiveRunner.t nat * nat :=
  match IContrastiveRunner.batch s with
  | Keyed d =>
      if bool_decide (map_Forall (fun _ v => is_Some (iter v)) d)
      then (Ok tt, s, S w)
      else (Raise (TypeError "object has no len()"), s, w)
  | Flat items =>
      if bool_decide (Forall (fun v => is_Some (iter v)) (take 1 items))
      then (Ok tt, s, S w)
      else (Raise (TypeError "object has no len()"), s, w)
  end.

(** A flat batch of tensors: two views and the targets. *)
Definition tensor_triple : list value :=
  [VTensor [VScalar 1]; VTensor [VScalar 2]; VTensor [VScalar 0]].

(** * Properties *)

Ltac run_M :=
  unfold mbind, M_bind, bind, mret, M_ret, ret, lift in *.

(** Closed goals on concrete keys: two keys differ; a key is not in a
    list of keys. *)
Ltac distinct_keys :=
  let H := fresh in intros H; vm_compute in H; discriminate H.

Ltac not_listed :=
  let H := fresh in
  intros H;
  repeat (apply elem_of_cons in H as [H | H]; [vm_compute in H; discriminate H|]);
  by apply elem_of_nil in H.

(** ** Dictionaries *)

Lemma dict_update_cons d k v kvs :
  dict_update d ((k, v) :: kvs) = dict_update (<[k := v]> d) kvs.
Proof. reflexivity. Qed.

Lemma dict_update_nil d : dict_update d [] = d.
Proof. reflexivity. Qed.

Lemma dom_dict_update d kvs :
  dom (dict_update d kvs) = dom d ∪ list_to_set kvs.*1.
Proof.
  revert d. induction kvs as [|[k v] kvs IH]; intros d.
  - rewrite dict_update_nil. set_solver.
  - rewrite dict_update_cons, IH, dom_insert_L. set_solver.
Qed.

Lemma lookup_dict_update_notin d kvs k :
  k ∉ kvs.*1 → dict_update d kvs !! k = d !! k.
Proof.
  revert d. induction kvs as [|[k' v] kvs IH]; intros d Hk.
  - reflexivity.
  - rewrite dict_update_cons, IH by set_solver.
    apply lookup_insert_ne. set_solver.
Qed.

Lemma unpack2_two_items v :
  two_items v = is_Ok (unpack2 v).
Proof.
  unfold two_items, unpack2.
  destruct (iter v) as [[|a [|b [|c l]]]|]; reflexivity.
Qed.

Lemma unpack2_raise v e :
  unpack2 v = Raise e → is_unpack_error e = true.
Proof.
  unfold unpack2.
  destruct (iter v) as [[|a [|b [|c l]]]|]; intros H; inversion H; reflexivity.
Qed.

(** ** ContrastiveDataset *)

Section DatasetProps.
Context {World : Type}.
Implicit Types (ds : Dataset World) (tf tl tr : option (Callable World)).
Implicit Types (self : ContrastiveDataset.t World) (w : World).

Import ContrastiveDataset.

Lemma init_both ds tf l r :
  __init__ ds tf (Some l) (Some r)
  = Ok {| transform_right := r; transform_left := l; dataset := ds |}.
Proof. reflexivity. Qed.

Lemma init_shared ds f tl tr :
  tl = None ∨ tr = None →
  __init__ ds (Some f) tl tr
  = Ok {| transform_right := f; transform_left := f; dataset := ds |}.
Proof. destruct tl, tr; intros [? | ?]; simplify_eq; reflexivity. Qed.

Lemma init_neither ds tl tr :
  tl = None ∨ tr = None →
  __init__ ds None tl tr = Raise ConfigurationError.
Proof. destruct tl, tr; intros [? | ?]; simplify_eq; reflexivity. Qed.

Lemma init_dataset ds tf tl tr self :
  __init__ ds tf tl tr = Ok self → dataset self = ds.
Proof.
  unfold __init__. destruct tr, tl, tf; intros H; inversion H; reflexivity.
Qed.

Lemma getitem_run self idx w item w1 sample target a1 w2 a2 w3 :
  ds_getitem (dataset self) idx w = (Ok item, w1) →
  unpack2 item = Ok (sample, target) →
  transform_left self sample w1 = (Ok a1, w2) →
  transform_right self sample w2 = (Ok a2, w3) →
  __getitem__ self idx w
  = (Ok (dict_display [("aug1", a1); ("aug2", a2); ("target", target)]), w3).
Proof.
  intros Hds Hun Hl Hr. unfold __getitem__. run_M.
  rewrite Hds, Hun, Hl, Hr. reflexivity.
Qed.

(** C7: a fetch returns a record with exactly the keys aug1, aug2 and
    target; target is the base dataset's target at that index, aug1 is
    what the left transform returns on the base input and aug2 what the
    right transform returns on it, the right one being invoked after the
    left one, in the world the left one leaves behind.  On a dataset built
    with both [transform_left] and [transform_right], those two are the
    transforms applied, whatever [transforms] is. *)
Theorem getitem_record ds tf tl tr self idx w item w1 sample target a1 w2 a2 w3 :
  __init__ ds tf tl tr = Ok self →
  ds_getitem ds idx w = (Ok item, w1) →
  unpack2 item = Ok (sample, target) →
  transform_left self sample w1 = (Ok a1, w2) →
  transform_right self sample w2 = (Ok a2, w3) →
  (∃ record,
      __getitem__ self idx w = (Ok record, w3)
      ∧ dom record = {["aug1"; "aug2"; "target"]}
      ∧ record !! "aug1" = Some a1
      ∧ record !! "aug2" = Some a2
      ∧ record !! "target" = Some target)
  ∧ (∀ l r, tl = Some l → tr = Some r →
       transform_left self = l ∧ transform_right self = r).
Proof.
  intros Hinit Hds Hun Hl Hr. split.
  - rewrite <- (init_dataset _ _ _ _ _ Hinit) in Hds.
    eexists. split; [eapply getitem_run; eassumption|].
    unfold dict_display. rewrite dom_dict_update. cbn [dict_update foldl fst snd].
    split; [set_solver|].
    repeat split; by simplify_map_eq.
  - intros l r -> ->. rewrite init_both in Hinit. by inversion Hinit.
Qed.

(** C8: construction fails with ConfigurationError when neither the
    shared [transforms] nor both per-view transforms are given, and
    succeeds as soon as one of the two modes is fully specified. *)
Theorem init_configuration ds tf tl tr :
  (tf = None ∧ (tl = None ∨ tr = None) →
     __init__ ds tf tl tr = Raise ConfigurationError)
  ∧ (is_Some tf ∨ (is_Some tl ∧ is_Some tr) →
     is_Ok (__init__ ds tf tl tr) = true).
Proof.
  split.
  - intros [-> H]. by apply init_neither.
  - intros [[f ->] | [[l ->] [r ->]]].
    + destruct tl, tr; reflexivity.
    + reflexivity.
Qed.


End DatasetProps.

(** *** The dataset on sample inputs *)

Lemma getitem_record_witness :
  (∃ record,
      ContrastiveDataset.__getitem__
        (ContrastiveDataset.mk negate identity toy_dataset) (VInt 3) 0%nat
      = (Ok record, 2%nat)
      ∧ dom record = {["aug1"; "aug2"; "target"]}
      ∧ record !! "aug1" = Some (VTensor [VScalar 3])
      ∧ record !! "aug2" = Some (VTuple [VStr "neg"; VTensor [VScalar 3]])
      ∧ record !! "target" = Some (VInt 1))
  ∧ (∀ l r, Some identity = Some l → Some negate = Some r →
       ContrastiveDataset.transform_left
         (ContrastiveDataset.mk negate identity toy_dataset) = l
       ∧ ContrastiveDataset.transform_right
         (ContrastiveDataset.mk negate identity toy_dataset) = r).
Proof.
  eapply (getitem_record toy_dataset (Some jitter) (Some identity) (Some negate));
    reflexivity.
Defined.

(** The same stochastic transform on both sides still yields two views:
    it is called twice. *)
Example getitem_two_draws :
  ∀ self, ContrastiveDataset.__init__ toy_dataset (Some jitter) None None = Ok self →
  ContrastiveDataset.__getitem__ self (VInt 2) 0%nat
  = (Ok (dict_display
           [("aug1", VTuple [VTensor [VScalar 2]; VInt 0]);
            ("aug2", VTuple [VTensor [VScalar 2]; VInt 1]);
            ("target", VInt 0)]), 2%nat).
Proof. intros self H. inversion H. reflexivity. Qed.

Lemma init_configuration_witness :
  ContrastiveDataset.__init__ toy_dataset None (Some jitter) None
  = Raise ConfigurationError
  ∧ is_Ok (ContrastiveDataset.__init__ toy_dataset None (Some identity) (Some negate))
    = true.
Proof.
  split.
  - apply (init_configuration toy_dataset None (Some jitter) None).
    split; [reflexivity | right; reflexivity].
  - apply (init_configuration toy_dataset None (Some identity) (Some negate)).
    right. split; eexists; reflexivity.
Defined.


(** ** Key names *)

Lemma list_ascii_of_string_app s1 s2 :
  String.list_ascii_of_string (s1 +:+ s2)
  = (String.list_ascii_of_string s1 ++ String.list_ascii_of_string s2)%list.
Proof. induction s1 as [|c s1 IH]; simpl; [reflexivity | by rewrite IH]. Qed.

Lemma list_ascii_of_string_inj s1 s2 :
  String.list_ascii_of_string s1 = String.list_ascii_of_string s2 → s1 = s2.
Proof.
  intros H.
  rewrite <- (String.string_of_list_ascii_of_string s1), H.
  apply String.string_of_list_ascii_of_string.
Qed.

Lemma key_left_inj p q : key_left p = key_left q → p = q.
Proof.
  unfold key_left. intros H. apply list_ascii_of_string_inj.
  apply (f_equal String.list_ascii_of_string) in H.
  rewrite !list_ascii_of_string_app in H. by apply app_inv_tail in H.
Qed.

Lemma key_right_inj p q : key_right p = key_right q → p = q.
Proof.
  unfold key_right. intros H. apply list_ascii_of_string_inj.
  apply (f_equal String.list_ascii_of_string) in H.
  rewrite !list_ascii_of_string_app in H. by apply app_inv_tail in H.
Qed.

Lemma key_left_ne_right p q : key_left p ≠ key_right q.
Proof.
  unfold key_left, key_right. intros H.
  apply (f_equal String.list_ascii_of_string) in H.
  rewrite !list_ascii_of_string_app in H.
  apply (f_equal reverse) in H. rewrite !reverse_app in H.
  vm_compute in H. discriminate H.
Qed.

Lemma union_absorbs (m1 m2 : gmap string value) :
  dom m2 ⊆ dom m1 → m1 ∪ m2 = m1.
Proof.
  intros Hsub. apply map_eq. intros k. rewrite lookup_union.
  destruct (m1 !! k) as [v|] eqn:H1.
  - by destruct (m2 !! k).
  - assert (m2 !! k = None) as ->; [|done].
    apply not_elem_of_dom. intros Hk. apply Hsub in Hk.
    by apply not_elem_of_dom in H1.
Qed.

(** ** IContrastiveRunner: batches *)

Section RunnerProps.
Context {World : Type}.
Implicit Types (self : IContrastiveRunner.t World) (w : World).
Implicit Types (batch out : gmap string value).

Import IContrastiveRunner.

(** C4: a flat batch must have exactly three items; any other length
    fails with ShapeError, and three items are mapped to the dict display
    whose keys are the augmentation prefix followed by "_left", the
    augmentation prefix followed by "_right", and the target key, in this
    order. *)
Theorem process_batch_flat self items :
  (length items ≠ 3 → _process_batch self (Flat items) = Raise ShapeError)
  ∧ (∀ v0 v1 v2, items = [v0; v1; v2] →
       _process_batch self (Flat items)
       = Ok (Keyed (<[_target_key self := v2]>
                     (<[_augemention_prefix self +:+ "_right" := v1]>
                       (<[_augemention_prefix self +:+ "_left" := v0]> ∅))))).
Proof.
  split.
  - intros Hlen. destruct items as [|a [|b [|c [|d l]]]]; simpl in *; done.
  - intros v0 v1 v2 ->. reflexivity.
Qed.

(** C6: a batch that is already a mapping is returned as it is, and
    normalizing the outcome of a normalization changes nothing, for flat
    and keyed batches alike (a failing normalization stays the same
    failure). *)
Theorem process_batch_idempotent self b :
  (∀ d, _process_batch self (Keyed d) = Ok (Keyed d))
  ∧ (_process_batch self b ≫= _process_batch self) = _process_batch self b.
Proof.
  split; [reflexivity|].
  destruct b as [items|d]; [|reflexivity].
  destruct items as [|a [|b [|c [|d l]]]]; reflexivity.
Qed.

Lemma process_input_run self batch w x1 o1 w1 e1 p1 x2 o2 w2 e2 p2 :
  batch !! key_left (_augemention_prefix self) = Some x1 →
  model self x1 w = (Ok o1, w1) →
  unpack2 o1 = Ok (e1, p1) →
  batch !! key_right (_augemention_prefix self) = Some x2 →
  model self x2 w1 = (Ok o2, w2) →
  unpack2 o2 = Ok (e2, p2) →
  _process_input self batch w
  = (Ok (dict_update batch
           [(key_left (_projection_prefix self), p1);
            (key_right (_projection_prefix self), p2);
            (key_left (_embedding_prefix self), e1);
            (key_right (_embedding_prefix self), e2)]), w2).
Proof.
  intros Hx1 Hm1 Hu1 Hx2 Hm2 Hu2.
  unfold _process_input, dict_getitem. run_M.
  rewrite Hx1, Hm1, Hu1, Hx2, Hm2, Hu2. reflexivity.
Qed.

Lemma process_input_inv self batch w out w' :
  _process_input self batch w = (Ok out, w') →
  ∃ e1 p1 e2 p2,
    out = dict_update batch
            [(key_left (_projection_prefix self), p1);
             (key_right (_projection_prefix self), p2);
             (key_left (_embedding_prefix self), e1);
             (key_right (_embedding_prefix self), e2)].
Proof.
  unfold _process_input, dict_getitem. run_M.
  destruct (batch !! key_left (_augemention_prefix self)) as [x1|]; [|done].
  destruct (model self x1 w) as [[o1|?] w1]; [|done].
  destruct (unpack2 o1) as [[e1 p1]|?]; [|done].
  destruct (batch !! key_right (_augemention_prefix self)) as [x2|]; [|done].
  destruct (model self x2 w1) as [[o2|?] w2]; [|done].
  destruct (unpack2 o2) as [[e2 p2]|?]; [|done].
  intros H. inversion H. by exists e1, p1, e2, p2.
Qed.


(** C2, as the code has it: keys already in the batch never make the
    forward pass fail.  Whenever both views are in the batch and the
    model returns two items for each, the pass succeeds whatever else the
    batch holds, and afterwards the embedding keys hold the embeddings
    and, when the two prefixes differ, the projection keys hold the
    projections: a value stored before under such a key is overwritten. *)
Theorem forward_overwrites self batch w x1 o1 w1 e1 p1 x2 o2 w2 e2 p2 :
  batch !! key_left (_augemention_prefix self) = Some x1 →
  model self x1 w = (Ok o1, w1) →
  unpack2 o1 = Ok (e1, p1) →
  batch !! key_right (_augemention_prefix self) = Some x2 →
  model self x2 w1 = (Ok o2, w2) →
  unpack2 o2 = Ok (e2, p2) →
  ∃ out,
    forward self batch w = (Ok out, w2)
    ∧ out !! key_left (_embedding_prefix self) = Some e1
    ∧ out !! key_right (_embedding_prefix self) = Some e2
    ∧ (_projection_prefix self ≠ _embedding_prefix self →
         out !! key_left (_projection_prefix self) = Some p1
         ∧ out !! key_right (_projection_prefix self) = Some p2).
Proof.
  intros Hx1 Hm1 Hu1 Hx2 Hm2 Hu2. eexists. split.
  { unfold forward. eapply process_input_run; eassumption. }
  cbn [dict_update foldl fst snd].
  pose proof (key_left_ne_right (_embedding_prefix self) (_embedding_prefix self)).
  pose proof (key_left_ne_right (_projection_prefix self) (_projection_prefix self)).
  pose proof (key_left_ne_right (_projection_prefix self) (_embedding_prefix self)).
  pose proof (key_left_ne_right (_embedding_prefix self) (_projection_prefix self)).
  split; [|split].
  - by simplify_map_eq.
  - by simplify_map_eq.
  - intros Hne.
    assert (key_left (_projection_prefix self) ≠ key_left (_embedding_prefix self))
      by (intros ?%key_left_inj; done).
    assert (key_right (_projection_prefix self) ≠ key_right (_embedding_prefix self))
      by (intros ?%key_right_inj; done).
    split; by simplify_map_eq.
Qed.

(** C3, as the code has it: the model's return value is taken apart by a
    two-target assignment.  If what the model returns for the left view,
    or for the right view after a good left one, does not iterate to
    exactly two items, the forward pass fails with the assignment's error
    (ContractViolationError); if it does for both views the pass
    succeeds, tuple or not. *)
Theorem forward_unpack_contract self batch w x1 o1 w1 :
  batch !! key_left (_augemention_prefix self) = Some x1 →
  model self x1 w = (Ok o1, w1) →
  (two_items o1 = false →
     ∃ e, forward self batch w = (Raise e, w1) ∧ ContractViolationError e)
  ∧ (∀ x2 o2 w2,
       two_items o1 = true →
       batch !! key_right (_augemention_prefix self) = Some x2 →
       model self x2 w1 = (Ok o2, w2) →
       (two_items o2 = false →
          ∃ e, forward self batch w = (Raise e, w2) ∧ ContractViolationError e)
       ∧ (two_items o2 = true → ∃ out, forward self batch w = (Ok out, w2))).
Proof.
  intros Hx1 Hm1.
  unfold forward, _process_input, dict_getitem, ContractViolationError. run_M.
  rewrite Hx1, Hm1. rewrite !unpack2_two_items. split.
  - destruct (unpack2 o1) as [[e1 p1]|e] eqn:Hu1; [done|].
    intros _. exists e. split; [reflexivity|]. by eapply unpack2_raise.
  - intros x2 o2 w2. destruct (unpack2 o1) as [[e1 p1]|e] eqn:Hu1; [|done].
    intros _ Hx2 Hm2. rewrite Hx2, Hm2. rewrite !unpack2_two_items.
    destruct (unpack2 o2) as [[e2 p2]|e] eqn:Hu2; split; try done.
    + intros _. eexists. reflexivity.
    + intros _. exists e. split; [reflexivity|]. by eapply unpack2_raise.
Qed.


(** A raising model makes the step fail and leaves the runner alone. *)
Lemma handle_batch_model_raises self batch w x1 e w1 :
  batch !! key_left (_augemention_prefix self) = Some x1 →
  model self x1 w = (Raise e, w1) →
  handle_batch self batch w = (Raise e, self, w1).
Proof.
  intros Hx1 Hm1. unfold handle_batch, forward, _process_input, dict_getitem.
  run_M. by rewrite Hx1, Hm1.
Qed.

End RunnerProps.

(** *** Batches on sample inputs *)

Lemma process_batch_flat_witness :
  IContrastiveRunner._process_batch (default_runner pair_model)
    (Flat [VInt 1; VInt 2]) = Raise AssertionError
  ∧ IContrastiveRunner._process_batch (default_runner pair_model)
      (Flat [VInt 1; VInt 2; VInt 0])
    = Ok (Keyed (<["target" := VInt 0]>
                  (<["aug_right" := VInt 2]> (<["aug_left" := VInt 1]> ∅)))).
Proof.
  split.
  - apply (process_batch_flat (default_runner pair_model) [VInt 1; VInt 2]).
    simpl. lia.
  - apply (process_batch_flat (default_runner pair_model) [VInt 1; VInt 2; VInt 0]).
    reflexivity.
Defined.

(** A step of the loop on a flat batch of tensors: normalization at
    batch start, the parent's hook, then the forward pass merged into the
    stored batch. *)
Example batch_step :
  ∃ self' d self'' out,
    IContrastiveRunner.on_batch_start sized_hook
      (IContrastiveRunner.set_batch (default_runner pair_model) (Flat tensor_triple)) 0
    = (Ok tt, self', 1)
    ∧ IContrastiveRunner.batch self' = Keyed d
    ∧ IContrastiveRunner.handle_batch self' d 1 = (Ok tt, self'', 3)
    ∧ IContrastiveRunner.batch self'' = Keyed out
    ∧ dom out = {["aug_left"; "aug_right"; "target"; "projection_left";
                  "projection_right"; "embedding_left"; "embedding_right"]}
    ∧ out !! "target" = Some (VTensor [VScalar 0]).
Proof.
  eexists _, _, _, _. do 4 (split; [reflexivity|]).
  split; [|reflexivity]. vm_compute. reflexivity.
Qed.

(** The parent's hook raising on a batch of bare numbers: the step
    fails after the batch was replaced by its normalized form. *)
Example batch_start_hook_raises :
  ∃ self' d,
    IContrastiveRunner.on_batch_start sized_hook
      (IContrastiveRunner.set_batch (default_runner pair_model)
         (Flat [VInt 1; VInt 2; VInt 0])) 0
    = (Raise (TypeError "object has no len()"), self', 0)
    ∧ IContrastiveRunner.batch self' = Keyed d
    ∧ d !! "aug_left" = Some (VInt 1).
Proof. eexists _, _. repeat split; reflexivity. Qed.

(** C2, counterexample: with the default key names, a batch that already
    holds a value under projection_left goes through the forward pass
    without any error, and the old value is overwritten by the left
    projection. *)
Lemma forward_collision_overwrites :
  key_left "projection" ∈ enrichment_keys "projection" "embedding"
  ∧ colliding_batch !! key_left "projection" = Some (VInt 99)
  ∧ ∃ out,
      IContrastiveRunner.forward (default_runner pair_model) colliding_batch 0%nat
      = (Ok out, 2%nat)
      ∧ out !! key_left "projection" = Some (VTuple [VStr "proj"; VInt 1]).
Proof.
  split; [set_solver|]. split; [reflexivity|].
  eexists. split; reflexivity.
Qed.

Lemma forward_overwrites_witness :
  ∃ out,
    IContrastiveRunner.forward (default_runner pair_model) colliding_batch 0%nat
    = (Ok out, 2%nat)
    ∧ out !! key_left "embedding" = Some (VTuple [VStr "emb"; VInt 1])
    ∧ out !! key_right "embedding" = Some (VTuple [VStr "emb"; VInt 2])
    ∧ out !! key_left "projection" = Some (VTuple [VStr "proj"; VInt 1])
    ∧ out !! key_right "projection" = Some (VTuple [VStr "proj"; VInt 2]).
Proof.
  destruct (forward_overwrites (default_runner pair_model) colliding_batch 0%nat
              (VInt 1) (VTuple [VTuple [VStr "emb"; VInt 1]; VTuple [VStr "proj"; VInt 1]])
              1%nat (VTuple [VStr "emb"; VInt 1]) (VTuple [VStr "proj"; VInt 1])
              (VInt 2) (VTuple [VTuple [VStr "emb"; VInt 2]; VTuple [VStr "proj"; VInt 2]])
              2%nat (VTuple [VStr "emb"; VInt 2]) (VTuple [VStr "proj"; VInt 2])
              eq_refl eq_refl eq_refl eq_refl eq_refl eq_refl)
    as (out & Hrun & Hel & Her & Hproj).
  exists out. split; [exact Hrun|]. split; [exact Hel|]. split; [exact Her|].
  apply Hproj. discriminate.
Defined.

(** C3, counterexample: a model that returns one tensor with two rows,
    or a list of two items, returns no tuple, and yet the forward pass
    succeeds: the two rows (items) are taken for embedding and
    projection. *)
Lemma forward_accepts_non_tuples :
  (∃ out,
     IContrastiveRunner.forward (default_runner tensor_model) plain_batch 0%nat
     = (Ok out, 2%nat)
     ∧ out !! key_left "embedding" = Some (VTensor [VScalar 1])
     ∧ out !! key_left "projection" = Some (VTensor [VScalar 2]))
  ∧ (∃ out,
       IContrastiveRunner.forward (default_runner list_model) plain_batch 0%nat
       = (Ok out, 2%nat)).
Proof. split; eexists; repeat split; reflexivity. Qed.

Lemma forward_unpack_contract_witness :
  (∃ e, IContrastiveRunner.forward (default_runner scalar_model) plain_batch 0%nat
        = (Raise e, 1%nat)
        ∧ ContractViolationError e)
  ∧ (∃ e, IContrastiveRunner.forward (default_runner flaky_model) plain_batch 0%nat
          = (Raise e, 2%nat)
          ∧ ContractViolationError e)
  ∧ (∃ out, IContrastiveRunner.forward (default_runner list_model) plain_batch 0%nat
            = (Ok out, 2%nat)).
Proof.
  split; [|split].
  - destruct (forward_unpack_contract (default_runner scalar_model) plain_batch 0%nat
                (VInt 1) (VScalar 5) 1%nat eq_refl eq_refl) as [Hbad _].
    apply Hbad. reflexivity.
  - destruct (forward_unpack_contract (default_runner flaky_model) plain_batch 0%nat
                (VInt 1) (VTuple [VStr "emb"; VStr "proj"]) 1%nat eq_refl eq_refl)
      as [_ Hright].
    destruct (Hright (VInt 2) (VScalar 5) 2%nat eq_refl eq_refl eq_refl) as [Hbad _].
    apply Hbad. reflexivity.
  - destruct (forward_unpack_contract (default_runner list_model) plain_batch 0%nat
                (VInt 1) (VList [VStr "emb"; VStr "proj"]) 1%nat eq_refl eq_refl)
      as [_ Hright].
    destruct (Hright (VInt 2) (VList [VStr "emb"; VStr "proj"]) 2%nat
                eq_refl eq_refl eq_refl) as [_ Hgood].
    apply Hgood. reflexivity.
Defined.


(** ** ContrastiveRunner: callbacks *)


Lemma ICallback_eqb_refl a : ICallback_eqb a a = true.
Proof. by destruct a. Qed.




Lemma od_values_app d1 d2 : od_values (d1 ++ d2)%list = (od_values d1 ++ od_values d2)%list.
Proof. unfold od_values. apply fmap_app. Qed.

Lemma od_keys_app d1 d2 : od_keys (d1 ++ d2)%list = (od_keys d1 ++ od_keys d2)%list.
Proof. unfold od_keys. apply fmap_app. Qed.

Lemma od_setitem_fresh k v d :
  k ∉ od_keys d → od_setitem k v d = (d ++ [(k, v)])%list.
Proof.
  induction d as [|[k' v'] d IH]; intros Hk; simpl.
  - reflexivity.
  - unfold od_keys in Hk. rewrite fmap_cons in Hk. simpl in Hk.
    apply not_elem_of_cons in Hk as [Hne Hk].
    destruct (String.eqb k' k) eqn:E.
    + apply String.eqb_eq in E. congruence.
    + by rewrite IH.
Qed.


Section CallbackProps.
Context {World : Type}.
Implicit Types (self : ContrastiveRunner.t World).
Implicit Types (callbacks d : list (string * Callback)) (r : ICallback).

Import ContrastiveRunner.

Lemma is_callback_exists_cons k v d r :
  is_callback_exists ((k, v) :: d) r
  = callback_isinstance v r || is_callback_exists d r.
Proof. reflexivity. Qed.

Lemma is_callback_exists_app d1 d2 r :
  is_callback_exists (d1 ++ d2)%list r
  = is_callback_exists d1 r || is_callback_exists d2 r.
Proof.
  unfold is_callback_exists. rewrite od_values_app. apply existsb_app.
Qed.




Lemma get_callbacks_fixed self d :
  (∀ r, needs_default self d r = false) → get_callbacks self d = d.
Proof.
  intros H. unfold get_callbacks. cbv zeta.
  pose proof (H ICriterionCallback) as Hc.
  pose proof (H IOptimizerCallback) as Ho.
  pose proof (H ISchedulerCallback) as Hs.
  unfold needs_default, configured in Hc, Ho, Hs.
  rewrite Hc. rewrite Ho. rewrite Hs. reflexivity.
Qed.

Lemma get_callbacks_fresh self callbacks :
  (∀ r, fixed_key r ∉ od_keys callbacks) →
  get_callbacks self callbacks = callbacks ++ auto_wired self callbacks.
Proof.
  intros H.
  pose proof (H ICriterionCallback) as Hc.
  pose proof (H IOptimizerCallback) as Ho.
  pose proof (H ISchedulerCallback) as Hs.
  cbn [fixed_key] in Hc, Ho, Hs.
  unfold get_callbacks, auto_wired, needs_default, configured. cbv zeta.
  destruct (is_Criterion (_criterion self)),
           (is_callback_exists callbacks ICriterionCallback) eqn:Ec;
    cbn [andb negb];
    rewrite ?od_setitem_fresh by done;
    rewrite ?is_callback_exists_app, ?Ec;
    cbn [is_callback_exists od_values fmap list_fmap snd existsb
         callback_isinstance ICallback_eqb orb];
    rewrite ?orb_false_r;
    (destruct (is_Optimizer (_optimizer self)),
              (is_callback_exists callbacks IOptimizerCallback) eqn:Eo;
     cbn [andb negb];
     rewrite ?od_setitem_fresh
       by (rewrite ?od_keys_app; cbn [od_keys fmap list_fmap fst]; set_solver);
     rewrite ?is_callback_exists_app, ?Eo;
     cbn [is_callback_exists od_values fmap list_fmap snd existsb
          callback_isinstance ICallback_eqb orb];
     rewrite ?orb_false_r;
     (destruct (is_Scheduler_or_Plateau (_scheduler self)),
               (is_callback_exists callbacks ISchedulerCallback) eqn:Es;
      cbn [andb negb];
      rewrite ?od_setitem_fresh
        by (rewrite ?od_keys_app; cbn [od_keys fmap list_fmap fst]; set_solver);
      rewrite <- ?app_assoc; cbn [app]; rewrite ?app_nil_r; reflexivity)).
Qed.




End CallbackProps.

(** *** Callbacks on sample inputs *)

(** C1: with a criterion configured, the default names and no registered
    callback, stage setup injects exactly one callback, under the key
    _criterion and with the loss key as its metric key; but its input and
    target keys are projection_1 and projection_2, not the
    projection_left and projection_right that the forward pass writes. *)
Theorem get_callbacks_default_criterion_keys :
  ContrastiveRunner.get_callbacks
    (contrastive_runner (Some (Criterion "NTXentLoss")) None None) []
  = [("_criterion", CriterionCallback "projection_1" "projection_2" "loss")]
  ∧ CriterionCallback "projection_1" "projection_2" "loss"
    ≠ CriterionCallback (key_left "projection") (key_right "projection") "loss"
  ∧ ("projection_1" ∉ enrichment_keys "projection" "embedding")
  ∧ ("projection_2" ∉ enrichment_keys "projection" "embedding").
Proof.
  split; [reflexivity|]. split; [discriminate|].
  split; cbn; set_solver.
Qed.


(** A fixed key the caller already uses is overwritten where it stands:
    the default optimizer callback replaces the caller's callback instead
    of being appended, and a second stage setup on the outcome then adds
    a criterion callback. *)
Lemma reserved_name_overwritten :
  ContrastiveRunner.get_callbacks
    (contrastive_runner (Some (Criterion "NTXentLoss")) (Some (Optimizer "Adam")) None)
    reserved_name_taken
  = [("_optimizer", OptimizerCallback "loss");
     ("accuracy", UserCallback "AccuracyCallback" [])]
  ∧ ContrastiveRunner.get_callbacks
      (contrastive_runner (Some (Criterion "NTXentLoss")) (Some (Optimizer "Adam")) None)
      [("_optimizer", OptimizerCallback "loss");
       ("accuracy", UserCallback "AccuracyCallback" [])]
    = [("_optimizer", OptimizerCallback "loss");
       ("accuracy", UserCallback "AccuracyCallback" []);
       ("_criterion", CriterionCallback "projection_1" "projection_2" "loss")].
Proof. split; reflexivity. Qed.

(** * Further properties of the code *)

(** ** ContrastiveDataset *)

Section DatasetMore.
Context {World : Type}.
Implicit Types (ds : Dataset World) (tf tl tr : option (Callable World)).
Implicit Types (self : ContrastiveDataset.t World) (w : World).

Import ContrastiveDataset.

(** X1: however the wrapper was built, its length is the length of the
    base dataset. *)
Theorem len_is_base_len ds tf tl tr self :
  __init__ ds tf tl tr = Ok self → __len__ self = ds_len ds.
Proof.
  unfold __init__, __len__.
  destruct tr, tl, tf; intros H; inversion H; reflexivity.
Qed.

(** X2: a record is never made up.  Whenever a fetch returns a record,
    the base dataset returned a two-item value at that index, both
    transforms ran on its first item, left then right, and the record is
    the display of their two results and the second item. *)
Theorem getitem_inv self idx w record w' :
  __getitem__ self idx w = (Ok record, w') →
  ∃ item w1 sample target a1 w2 a2,
    ds_getitem (dataset self) idx w = (Ok item, w1)
    ∧ unpack2 item = Ok (sample, target)
    ∧ transform_left self sample w1 = (Ok a1, w2)
    ∧ transform_right self sample w2 = (Ok a2, w')
    ∧ record = dict_display [("aug1", a1); ("aug2", a2); ("target", target)].
Proof.
  unfold __getitem__. run_M.
  destruct (ds_getitem (dataset self) idx w) as [[item|?] w1] eqn:Hds; [|done].
  destruct (unpack2 item) as [[sample target]|?] eqn:Hun; [|done].
  destruct (transform_left self sample w1) as [[a1|?] w2] eqn:Hl; [|done].
  destruct (transform_right self sample w2) as [[a2|?] w3] eqn:Hr; [|done].
  intros H. inversion H. subst.
  by exists item, w1, sample, target, a1, w2, a2.
Qed.

(** X3: when the base dataset raises, the fetch raises the same
    exception; when the base item does not unpack into two items, the
    fetch raises the unpacking error.  In both cases the world is the one
    the base dataset left: no transform, whichever it is, has run. *)
Theorem getitem_fetch_failure ds idx w r w1 :
  ds_getitem ds idx w = (r, w1) →
  match r with
  | Raise e =>
      ∀ l r', __getitem__ (mk r' l ds) idx w = (Raise e, w1)
  | Ok item =>
      two_items item = false →
      ∃ e, is_unpack_error e = true
           ∧ ∀ l r', __getitem__ (mk r' l ds) idx w = (Raise e, w1)
  end.
Proof.
  intros Hds. destruct r as [item|e].
  - rewrite unpack2_two_items. intros Hbad.
    destruct (unpack2 item) as [?|e] eqn:Hun; [done|].
    exists e. split; [by eapply unpack2_raise|].
    intros l r'. unfold __getitem__. run_M. simpl. by rewrite Hds, Hun.
  - intros l r'. unfold __getitem__. run_M. simpl. by rewrite Hds.
Qed.

(** X4: a raising transform aborts the fetch with its own exception.  If
    the left transform raises, the outcome is the same whatever the right
    transform is: the right one is not reached.  If the right transform
    raises, no record is returned although the left view was computed. *)
Theorem getitem_transform_failure ds idx w item w1 sample target l :
  ds_getitem ds idx w = (Ok item, w1) →
  unpack2 item = Ok (sample, target) →
  (∀ e w2, l sample w1 = (Raise e, w2) →
     ∀ r, __getitem__ (mk r l ds) idx w = (Raise e, w2))
  ∧ (∀ a1 w2 r e w3, l sample w1 = (Ok a1, w2) → r sample w2 = (Raise e, w3) →
       __getitem__ (mk r l ds) idx w = (Raise e, w3)).
Proof.
  intros Hds Hun. split.
  - intros e w2 Hl r. unfold __getitem__. run_M. simpl. by rewrite Hds, Hun, Hl.
  - intros a1 w2 r e w3 Hl Hr. unfold __getitem__. run_M. simpl.
    by rewrite Hds, Hun, Hl, Hr.
Qed.

(** X5: on a wrapper built from the shared [transforms] alone, a
    transform that returns without changing the world gives the two views
    the same value. *)
Theorem getitem_shared_deterministic ds f tl tr self idx w item w1 sample target a :
  tl = None ∨ tr = None →
  __init__ ds (Some f) tl tr = Ok self →
  ds_getitem ds idx w = (Ok item, w1) →
  unpack2 item = Ok (sample, target) →
  f sample w1 = (Ok a, w1) →
  ∃ record,
    __getitem__ self idx w = (Ok record, w1)
    ∧ record !! "aug1" = Some a
    ∧ record !! "aug2" = Some a.
Proof.
  intros Hlone Hinit Hds Hun Hf.
  rewrite (init_shared ds f _ _ Hlone) in Hinit. inversion Hinit as [Hself].
  eexists. split.
  - unfold __getitem__. run_M. simpl. rewrite Hds, Hun, Hf, Hf. reflexivity.
  - unfold dict_display. cbn [dict_update foldl fst snd].
    split; by simplify_map_eq.
Qed.

End DatasetMore.

Lemma getitem_inv_witness :
  ∃ item w1 sample target a1 w2 a2,
    ds_getitem toy_dataset (VInt 1) 0 = (Ok item, w1)
    ∧ unpack2 item = Ok (sample, target)
    ∧ jitter sample w1 = (Ok a1, w2)
    ∧ negate sample w2 = (Ok a2, 2)
    ∧ dict_display
        [("aug1", VTuple [VTensor [VScalar 1]; VInt 0]);
         ("aug2", VTuple [VStr "neg"; VTensor [VScalar 1]]);
         ("target", VInt 1)]
      = dict_display [("aug1", a1); ("aug2", a2); ("target", target)].
Proof.
  apply (getitem_inv (ContrastiveDataset.mk negate jitter toy_dataset) (VInt 1) 0).
  reflexivity.
Defined.

Lemma len_is_base_len_witness :
  ContrastiveDataset.__len__ (ContrastiveDataset.mk jitter jitter toy_dataset) = 4.
Proof.
  apply (len_is_base_len toy_dataset (Some jitter) None (Some negate)).
  reflexivity.
Defined.

Lemma getitem_fetch_failure_witness :
  (∀ l r, ContrastiveDataset.__getitem__ (ContrastiveDataset.mk r l toy_dataset)
            (VInt 4) 0
          = (Raise (Raised "IndexError"), 0))
  ∧ (∃ e, is_unpack_error e = true
          ∧ ∀ l r, ContrastiveDataset.__getitem__
                     (ContrastiveDataset.mk r l unlabelled_dataset) (VInt 0) 0
                   = (Raise e, 0)).
Proof.
  split.
  - apply (getitem_fetch_failure toy_dataset (VInt 4) 0
             (Raise (Raised "IndexError")) 0).
    reflexivity.
  - apply (getitem_fetch_failure unlabelled_dataset (VInt 0) 0
             (Ok (VTensor [VScalar 1; VScalar 2; VScalar 3])) 0);
      reflexivity.
Defined.

Lemma getitem_transform_failure_witness :
  (∀ r, ContrastiveDataset.__getitem__ (ContrastiveDataset.mk r failing toy_dataset)
          (VInt 0) 0
        = (Raise (Raised "RuntimeError"), 1))
  ∧ ContrastiveDataset.__getitem__ (ContrastiveDataset.mk failing jitter toy_dataset)
      (VInt 0) 0
    = (Raise (Raised "RuntimeError"), 2).
Proof.
  split.
  - destruct (getitem_transform_failure toy_dataset (VInt 0) 0
                (VTuple [VTensor [VScalar 0]; VInt 0]) 0
                (VTensor [VScalar 0]) (VInt 0) failing eq_refl eq_refl) as [Hleft _].
    apply Hleft. reflexivity.
  - destruct (getitem_transform_failure toy_dataset (VInt 0) 0
                (VTuple [VTensor [VScalar 0]; VInt 0]) 0
                (VTensor [VScalar 0]) (VInt 0) jitter eq_refl eq_refl) as [_ Hright].
    apply (Hright (VTuple [VTensor [VScalar 0]; VInt 0]) 1 failing). all: reflexivity.
Defined.

Lemma getitem_shared_deterministic_witness :
  ∃ record,
    ContrastiveDataset.__getitem__ (ContrastiveDataset.mk flip flip toy_dataset)
      (VInt 2) 0
    = (Ok record, 0)
    ∧ record !! "aug1" = Some (VTuple [VStr "flip"; VTensor [VScalar 2]])
    ∧ record !! "aug2" = Some (VTuple [VStr "flip"; VTensor [VScalar 2]]).
Proof.
  apply (getitem_shared_deterministic toy_dataset flip (Some jitter) None _ (VInt 2) 0
           (VTuple [VTensor [VScalar 2]; VInt 0]) 0 (VTensor [VScalar 2]) (VInt 0));
    [right; reflexivity | reflexivity..].
Defined.

(** ** Dictionaries, continued *)

Lemma dict_update_union d kvs :
  dict_update d kvs = list_to_map (reverse kvs) ∪ d.
Proof.
  revert d. induction kvs as [|[k v] kvs IH]; intros d.
  - rewrite dict_update_nil. cbn. by rewrite (left_id_L ∅ (∪)).
  - rewrite dict_update_cons, IH, reverse_cons, list_to_map_app.
    cbn [list_to_map foldr uncurry]. rewrite insert_empty.
    rewrite <- (assoc_L (∪)). by rewrite <- insert_union_singleton_l.
Qed.

Lemma dict_update_idem d kvs :
  dict_update (dict_update d kvs) kvs = dict_update d kvs.
Proof.
  rewrite !dict_update_union, (assoc_L (∪)). by rewrite (idemp_L (∪)).
Qed.

Lemma dict_update_insert_comm k v d kvs :
  k ∉ kvs.*1 → dict_update (<[k := v]> d) kvs = <[k := v]> (dict_update d kvs).
Proof.
  revert d. induction kvs as [|[k' v'] kvs IH]; intros d Hk.
  - reflexivity.
  - rewrite !dict_update_cons. rewrite fmap_cons in Hk.
    apply not_elem_of_cons in Hk as [Hne Hk]. simpl in Hne.
    rewrite insert_insert_ne by done. by apply IH.
Qed.

(** ** IContrastiveRunner, continued *)

Section RunnerMore.
Context {World : Type}.
Implicit Types (self : IContrastiveRunner.t World) (w : World).
Implicit Types (batch out : gmap string value).

Import IContrastiveRunner.

Lemma view_key_not_enriched self k :
  _augemention_prefix self ≠ _projection_prefix self →
  _augemention_prefix self ≠ _embedding_prefix self →
  k ∈ [key_left (_augemention_prefix self); key_right (_augemention_prefix self)] →
  k ∉ enrichment_keys (_projection_prefix self) (_embedding_prefix self).
Proof.
  intros Hp He Hk Hin. unfold enrichment_keys in Hin.
  apply elem_of_cons in Hk as [-> | Hk];
    [|apply list_elem_of_singleton in Hk as ->];
    repeat (apply elem_of_cons in Hin as [Hin | Hin]);
    try (by apply elem_of_nil in Hin);
    try (by apply key_left_inj in Hin);
    try (by apply key_right_inj in Hin);
    try (by apply key_left_ne_right in Hin);
    try (symmetry in Hin; by apply key_left_ne_right in Hin).
Qed.

(** X6: the three items of a flat batch can be read back from the
    normalized batch.  The target is always under the target key; each
    view is under its key as long as the target key is not that key; and
    when the target key is neither view key the batch has exactly three
    entries. *)
Theorem process_batch_lookup self v0 v1 v2 :
  ∃ d,
    _process_batch self (Flat [v0; v1; v2]) = Ok (Keyed d)
    ∧ d !! _target_key self = Some v2
    ∧ (_target_key self ≠ key_right (_augemention_prefix self) →
       d !! key_right (_augemention_prefix self) = Some v1)
    ∧ (_target_key self ≠ key_left (_augemention_prefix self) →
       d !! key_left (_augemention_prefix self) = Some v0)
    ∧ (_target_key self ≠ key_left (_augemention_prefix self) →
       _target_key self ≠ key_right (_augemention_prefix self) →
       size d = 3).
Proof.
  eexists. split; [reflexivity|].
  unfold dict_display. cbn [dict_update foldl fst snd].
  pose proof (key_left_ne_right (_augemention_prefix self) (_augemention_prefix self)).
  split; [by simplify_map_eq|].
  split; [intros; by simplify_map_eq|].
  split; [intros; by simplify_map_eq|].
  intros Hl Hr.
  rewrite !map_size_insert_None, map_size_empty; [done|..]; by simplify_map_eq.
Qed.

(** X7: a target key that coincides with a view key silently costs that
    view: the normalized batch has two entries, and the view's key holds
    the target. *)
Theorem process_batch_target_aliases_view self v0 v1 v2 :
  (_target_key self = key_left (_augemention_prefix self) →
     _process_batch self (Flat [v0; v1; v2])
     = Ok (Keyed (<[key_right (_augemention_prefix self) := v1]>
                   {[key_left (_augemention_prefix self) := v2]})))
  ∧ (_target_key self = key_right (_augemention_prefix self) →
     _process_batch self (Flat [v0; v1; v2])
     = Ok (Keyed (<[key_right (_augemention_prefix self) := v2]>
                   {[key_left (_augemention_prefix self) := v0]}))).
Proof.
  pose proof (key_left_ne_right (_augemention_prefix self) (_augemention_prefix self)).
  split; intros Heq; unfold _process_batch, dict_display;
    cbn [dict_update foldl fst snd]; rewrite Heq; do 2 f_equal.
  - rewrite insert_insert_ne by done. rewrite insert_insert_eq.
    by rewrite insert_empty.
  - rewrite insert_insert_eq. by rewrite insert_empty.
Qed.


(** X9: a batch without the left view makes the forward pass raise
    KeyError for the left key before the model is called at all.  A
    batch with the left view but without the right one raises KeyError
    for the right key only after the model has run on the left view. *)
Theorem forward_missing_view self batch w :
  (batch !! key_left (_augemention_prefix self) = None →
     forward self batch w
     = (Raise (KeyError (key_left (_augemention_prefix self))), w))
  ∧ (∀ x1 o1 w1,
       batch !! key_left (_augemention_prefix self) = Some x1 →
       model self x1 w = (Ok o1, w1) →
       two_items o1 = true →
       batch !! key_right (_augemention_prefix self) = None →
       forward self batch w
       = (Raise (KeyError (key_right (_augemention_prefix self))), w1)).
Proof.
  unfold forward, _process_input, dict_getitem. run_M. split.
  - intros ->. reflexivity.
  - intros x1 o1 w1 -> -> Htwo ->. rewrite unpack2_two_items in Htwo.
    by destruct (unpack2 o1) as [[e1 p1]|?].
Qed.

(** X10: when the model raises, on the left view or on the right view
    after a good left one, the batch step raises the model's exception
    and the runner is exactly the one before the step. *)
Theorem handle_batch_model_failure self batch w x1 :
  batch !! key_left (_augemention_prefix self) = Some x1 →
  (∀ e w1, model self x1 w = (Raise e, w1) →
     handle_batch self batch w = (Raise e, self, w1))
  ∧ (∀ o1 w1 x2 e w2,
       model self x1 w = (Ok o1, w1) →
       two_items o1 = true →
       batch !! key_right (_augemention_prefix self) = Some x2 →
       model self x2 w1 = (Raise e, w2) →
       handle_batch self batch w = (Raise e, self, w2)).
Proof.
  intros Hx1. unfold handle_batch, forward, _process_input, dict_getitem. run_M.
  rewrite Hx1. split.
  - intros e w1 ->. reflexivity.
  - intros o1 w1 x2 e w2 -> Htwo -> Hm2. rewrite unpack2_two_items in Htwo.
    destruct (unpack2 o1) as [[e1 p1]|?]; [|done]. by rewrite Hm2.
Qed.

(** X11: an entry of the batch that is neither a view nor under an
    enrichment key has no influence on the forward pass and is carried
    through: adding it before the pass or after it gives the same
    outcome. *)
Theorem forward_frame self batch w k v :
  k ∉ [key_left (_augemention_prefix self); key_right (_augemention_prefix self)] →
  k ∉ enrichment_keys (_projection_prefix self) (_embedding_prefix self) →
  forward self (<[k := v]> batch) w
  = match forward self batch w with
    | (Ok out, w') => (Ok (<[k := v]> out), w')
    | (Raise e, w') => (Raise e, w')
    end.
Proof.
  intros Hview Hnew.
  apply not_elem_of_cons in Hview as [Hl Hr].
  apply not_elem_of_cons in Hr as [Hr _].
  unfold forward, _process_input, dict_getitem. run_M.
  rewrite !lookup_insert_ne by done.
  destruct (batch !! key_left (_augemention_prefix self)) as [x1|]; [|done].
  destruct (model self x1 w) as [[o1|?] w1]; [|done].
  destruct (unpack2 o1) as [[e1 p1]|?]; [|done].
  destruct (batch !! key_right (_augemention_prefix self)) as [x2|]; [|done].
  destruct (model self x2 w1) as [[o2|?] w2]; [|done].
  destruct (unpack2 o2) as [[e2 p2]|?]; [|done].
  by rewrite dict_update_insert_comm.
Qed.

End RunnerMore.

Section ForwardMore.
Context {World : Type}.
Implicit Types (self : IContrastiveRunner.t World) (w : World).
Implicit Types (batch out : gmap string value).

Import IContrastiveRunner.

(** X12: when the projection prefix and the embedding prefix are the
    same, the forward pass adds two entries only and they hold the
    embeddings: the projections are written first and lost. *)
Theorem forward_same_prefix self batch w x1 o1 w1 e1 p1 x2 o2 w2 e2 p2 :
  _projection_prefix self = _embedding_prefix self →
  batch !! key_left (_augemention_prefix self) = Some x1 →
  model self x1 w = (Ok o1, w1) →
  unpack2 o1 = Ok (e1, p1) →
  batch !! key_right (_augemention_prefix self) = Some x2 →
  model self x2 w1 = (Ok o2, w2) →
  unpack2 o2 = Ok (e2, p2) →
  forward self batch w
  = (Ok (<[key_right (_embedding_prefix self) := e2]>
          (<[key_left (_embedding_prefix self) := e1]> batch)), w2).
Proof.
  intros Hsame Hx1 Hm1 Hu1 Hx2 Hm2 Hu2. unfold forward.
  rewrite (process_input_run _ _ _ _ _ _ _ _ _ _ _ _ _ Hx1 Hm1 Hu1 Hx2 Hm2 Hu2).
  do 2 f_equal. rewrite Hsame. cbn [dict_update foldl fst snd].
  pose proof (key_left_ne_right (_embedding_prefix self) (_embedding_prefix self)).
  rewrite (insert_insert_ne _ (key_left (_embedding_prefix self))
             (key_right (_embedding_prefix self))) by done.
  by rewrite !insert_insert_eq.
Qed.

(** X13: with different projection and embedding prefixes and a batch
    that holds none of the four enrichment keys, a successful forward
    pass returns a batch with exactly four entries more. *)
Theorem forward_adds_four self batch w out w' :
  forward self batch w = (Ok out, w') →
  _projection_prefix self ≠ _embedding_prefix self →
  (∀ k, k ∈ enrichment_keys (_projection_prefix self) (_embedding_prefix self) →
        batch !! k = None) →
  size out = size batch + 4.
Proof.
  intros Hf Hne Hfresh. unfold forward in Hf.
  apply process_input_inv in Hf as (e1 & p1 & e2 & p2 & ->).
  cbn [dict_update foldl fst snd].
  pose proof (key_left_ne_right (_embedding_prefix self) (_embedding_prefix self)).
  pose proof (key_left_ne_right (_projection_prefix self) (_projection_prefix self)).
  pose proof (key_left_ne_right (_projection_prefix self) (_embedding_prefix self)).
  pose proof (key_left_ne_right (_embedding_prefix self) (_projection_prefix self)).
  assert (key_left (_projection_prefix self) ≠ key_left (_embedding_prefix self))
    by (intros ?%key_left_inj; done).
  assert (key_right (_projection_prefix self) ≠ key_right (_embedding_prefix self))
    by (intros ?%key_right_inj; done).
  assert (batch !! key_left (_projection_prefix self) = None)
    by (apply Hfresh; unfold enrichment_keys; set_solver).
  assert (batch !! key_right (_projection_prefix self) = None)
    by (apply Hfresh; unfold enrichment_keys; set_solver).
  assert (batch !! key_left (_embedding_prefix self) = None)
    by (apply Hfresh; unfold enrichment_keys; set_solver).
  assert (batch !! key_right (_embedding_prefix self) = None)
    by (apply Hfresh; unfold enrichment_keys; set_solver).
  rewrite !map_size_insert_None; [lia|..]; by simplify_map_eq.
Qed.

Lemma process_input_inv_full self batch w out w' :
  _process_input self batch w = (Ok out, w') →
  ∃ x1 o1 w1 e1 p1 x2 o2 e2 p2,
    batch !! key_left (_augemention_prefix self) = Some x1
    ∧ model self x1 w = (Ok o1, w1)
    ∧ unpack2 o1 = Ok (e1, p1)
    ∧ batch !! key_right (_augemention_prefix self) = Some x2
    ∧ model self x2 w1 = (Ok o2, w')
    ∧ unpack2 o2 = Ok (e2, p2)
    ∧ out = dict_update batch
              [(key_left (_projection_prefix self), p1);
               (key_right (_projection_prefix self), p2);
               (key_left (_embedding_prefix self), e1);
               (key_right (_embedding_prefix self), e2)].
Proof.
  unfold _process_input, dict_getitem. run_M.
  destruct (batch !! key_left (_augemention_prefix self)) as [x1|]; [|done].
  destruct (model self x1 w) as [[o1|?] w1] eqn:Hm1; [|done].
  destruct (unpack2 o1) as [[e1 p1]|?] eqn:Hu1; [|done].
  destruct (batch !! key_right (_augemention_prefix self)) as [x2|]; [|done].
  destruct (model self x2 w1) as [[o2|?] w2] eqn:Hm2; [|done].
  destruct (unpack2 o2) as [[e2 p2]|?] eqn:Hu2; [|done].
  intros H. inversion H. subst w'.
  by exists x1, o1, w1, e1, p1, x2, o2, e2, p2.
Qed.

(** X14: for a model whose answer depends on its input only and which
    leaves the world alone, and an augmentation prefix different from the
    projection and embedding prefixes, the forward pass is idempotent:
    run on its own output it returns that output again. *)
Theorem forward_idempotent self (g : value → result value) batch w out w' :
  (∀ x w0, model self x w0 = (g x, w0)) →
  _augemention_prefix self ≠ _projection_prefix self →
  _augemention_prefix self ≠ _embedding_prefix self →
  forward self batch w = (Ok out, w') →
  w' = w ∧ forward self out w = (Ok out, w).
Proof.
  intros Hpure Hp He Hf. unfold forward in *.
  apply process_input_inv_full in Hf
    as (x1 & o1 & w1 & e1 & p1 & x2 & o2 & e2 & p2
        & Hx1 & Hm1 & Hu1 & Hx2 & Hm2 & Hu2 & ->).
  rewrite Hpure in Hm1. inversion Hm1 as [[Hg1 Hw1]]. subst w1.
  rewrite Hpure in Hm2. inversion Hm2 as [[Hg2 Hw2]]. subst w'.
  split; [done|].
  rewrite <- (dict_update_idem batch) at 2.
  apply process_input_run with (x1 := x1) (o1 := o1) (w1 := w) (x2 := x2) (o2 := o2);
    try done.
  - rewrite lookup_dict_update_notin; [done|].
    apply (view_key_not_enriched self); [done..|set_solver].
  - by rewrite Hpure, Hg1.
  - rewrite lookup_dict_update_notin; [done|].
    apply (view_key_not_enriched self); [done..|set_solver].
  - by rewrite Hpure, Hg2.
Qed.

End ForwardMore.

(** ** ContrastiveRunner: inference *)

Section PredictProps.
Context {World : Type}.
Implicit Types (self : ContrastiveRunner.t World) (w : World).
Implicit Types (sync_device : gmap string value → M World (gmap string value)).

Import ContrastiveRunner.

(** X15: with an engine that leaves the batch where it is and a
    parent's hook that leaves the runner as it finds it, inference
    returns exactly the batch a training step stores: if a batch start on
    the raw batch returns and the batch step that follows succeeds and
    stores [out], then [predict_batch] on the raw batch, run in the world
    of the batch step, returns [out] and ends in the same world. *)
Theorem predict_batch_agrees sync_device
    (hook : IContrastiveRunner.t World → World
            → result unit * IContrastiveRunner.t World * World)
    self raw w0 s1 w d s2 w' out :
  (∀ d0 wa, sync_device d0 wa = (Ok d0, wa)) →
  (∀ s wa r s' wb, hook s wa = (r, s', wb) → s' = s) →
  IContrastiveRunner.on_batch_start hook
    (IContrastiveRunner.set_batch (base self) raw) w0
  = (Ok tt, s1, w) →
  IContrastiveRunner.batch s1 = Keyed d →
  IContrastiveRunner.handle_batch s1 d w = (Ok tt, s2, w') →
  IContrastiveRunner.batch s2 = Keyed out →
  predict_batch sync_device self raw w = (Ok out, w').
Proof.
  intros Hsync Hhook Hstart Hd Hstep Hout.
  unfold IContrastiveRunner.on_batch_start in Hstart.
  cbn [IContrastiveRunner.batch IContrastiveRunner.set_batch] in Hstart.
  unfold predict_batch. run_M.
  assert (IContrastiveRunner._process_batch (base self) raw = Ok (Keyed d)
          ∧ IContrastiveRunner.forward s1 d
            = IContrastiveRunner.forward (base self) d) as [-> Hsame].
  { destruct raw as [items|d0].
    - destruct items as [|a [|b [|c [|x l]]]];
        cbn [IContrastiveRunner._process_batch] in *; try done.
      apply Hhook in Hstart. subst s1. simpl in Hd. by inversion Hd.
    - cbn [IContrastiveRunner._process_batch] in *.
      apply Hhook in Hstart. subst s1. simpl in Hd. by inversion Hd. }
  rewrite Hsync.
  unfold IContrastiveRunner.handle_batch in Hstep. rewrite Hsame in Hstep.
  destruct (IContrastiveRunner.forward (base self) d w) as [[o|e] w1] eqn:Hf; [|done].
  inversion Hstep; subst. simpl in Hout. inversion Hout as [Hu].
  f_equal. f_equal.
  unfold IContrastiveRunner.forward in Hf.
  apply process_input_inv in Hf as (e1 & p1 & e2 & p2 & ->).
  symmetry. apply union_absorbs. rewrite dom_dict_update. set_solver.
Qed.

(** X16: inference on a flat batch whose length is not three raises the
    assertion error at once: whatever the engine and the model are,
    neither has run. *)
Theorem predict_batch_shape_error sync_device self items w :
  length items ≠ 3 →
  predict_batch sync_device self (Flat items) w = (Raise AssertionError, w).
Proof.
  intros Hlen. unfold predict_batch. run_M.
  destruct items as [|a [|b [|c [|x l]]]]; simpl in *; done.
Qed.

End PredictProps.

(** ** ContrastiveRunner: callbacks, continued *)

Lemma od_get_setitem_eq k v d : od_get k (od_setitem k v d) = Some v.
Proof.
  induction d as [|[k' v'] d IH]; cbn [od_setitem od_get].
  - by rewrite String.eqb_refl.
  - destruct (String.eqb k' k) eqn:E; cbn [od_get].
    + by rewrite String.eqb_refl.
    + by rewrite E.
Qed.

Lemma od_get_setitem_ne k k' v d :
  k' ≠ k → od_get k' (od_setitem k v d) = od_get k' d.
Proof.
  intros Hne. induction d as [|[k0 v0] d IH]; cbn [od_setitem od_get].
  - destruct (String.eqb k k') eqn:E; [|done].
    apply String.eqb_eq in E. congruence.
  - destruct (String.eqb k0 k) eqn:E; cbn [od_get].
    + apply String.eqb_eq in E as ->.
      destruct (String.eqb k k') eqn:E'; [|done].
      apply String.eqb_eq in E'. congruence.
    + by rewrite IH.
Qed.

Lemma od_keys_setitem k v d :
  od_keys (od_setitem k v d)
  = od_keys d ++ (if bool_decide (k ∈ od_keys d) then [] else [k]).
Proof.
  induction d as [|[k' v'] d IH]; cbn [od_setitem].
  - reflexivity.
  - unfold od_keys in *. rewrite fmap_cons. cbn [fst].
    destruct (String.eqb k' k) eqn:E.
    + apply String.eqb_eq in E as ->. rewrite fmap_cons. cbn [fst].
      rewrite bool_decide_eq_true_2 by set_solver. by rewrite app_nil_r.
    + apply String.eqb_neq in E. rewrite fmap_cons, IH. cbn [fst].
      destruct (bool_decide (k ∈ d.*1)) eqn:Hd.
      * apply bool_decide_eq_true_1 in Hd.
        by rewrite bool_decide_eq_true_2 by set_solver.
      * apply bool_decide_eq_false_1 in Hd.
        by rewrite bool_decide_eq_false_2 by set_solver.
Qed.

Lemma od_setitem_NoDup k v d :
  NoDup (od_keys d) → NoDup (od_keys (od_setitem k v d)).
Proof.
  intros Hnd. rewrite od_keys_setitem.
  destruct (bool_decide (k ∈ od_keys d)) eqn:Hd.
  - by rewrite app_nil_r.
  - apply bool_decide_eq_false_1 in Hd.
    apply NoDup_app. split; [done|]. split; [|apply NoDup_singleton].
    intros x Hx Hin. apply list_elem_of_singleton in Hin as ->. done.
Qed.

Section CallbackMore.
Context {World : Type}.
Implicit Types (self : ContrastiveRunner.t World).
Implicit Types (callbacks d : list (string * Callback)) (r : ICallback).

Import ContrastiveRunner.

Lemma is_callback_exists_setitem_none k v d r :
  is_callback_exists d r = false →
  is_callback_exists (od_setitem k v d) r = callback_isinstance v r.
Proof.
  induction d as [|[k' v'] d IH]; cbn [od_setitem].
  - intros _. rewrite is_callback_exists_cons. apply orb_false_r.
  - rewrite is_callback_exists_cons. intros [Hv Hd]%orb_false_iff.
    destruct (String.eqb k' k); rewrite is_callback_exists_cons.
    + by rewrite Hd, orb_false_r.
    + by rewrite Hv, IH.
Qed.

Lemma wire_step_get (cfg b : bool) key v d k :
  (cfg = true → k ≠ key) →
  od_get k (if cfg && b then od_setitem key v d else d) = od_get k d.
Proof.
  intros Hk. destruct cfg; [|done]. destruct b; [|done].
  cbn [andb]. apply od_get_setitem_ne. by apply Hk.
Qed.

Lemma wire_step_keys (c : bool) key v d :
  ∃ added,
    od_keys (if c then od_setitem key v d else d) = od_keys d ++ added
    ∧ (added = [] ∨ (added = [key] ∧ c = true)).
Proof.
  destruct c.
  - rewrite od_keys_setitem. eexists. split; [reflexivity|].
    destruct (bool_decide (key ∈ od_keys d)); auto.
  - exists []. rewrite app_nil_r. auto.
Qed.

Lemma wire_step_NoDup (c : bool) key v d :
  NoDup (od_keys d) → NoDup (od_keys (if c then od_setitem key v d else d)).
Proof. destruct c; [apply od_setitem_NoDup | done]. Qed.

(** X17: stage setup leaves alone every key that is not the fixed key of
    a configured component: the callback stored under such a key, or its
    absence, is the same before and after. *)
Theorem get_callbacks_untouched self callbacks k :
  (∀ r, configured self r = true → k ≠ fixed_key r) →
  od_get k (get_callbacks self callbacks) = od_get k callbacks.
Proof.
  intros Hk. unfold get_callbacks. cbv zeta.
  rewrite wire_step_get by (apply (Hk ISchedulerCallback)).
  rewrite wire_step_get by (apply (Hk IOptimizerCallback)).
  by rewrite wire_step_get by (apply (Hk ICriterionCallback)).
Qed.

(** X18: stage setup keeps the caller's keys in front and in their
    order.  What it adds behind them is at most three keys, each the
    fixed key of a configured component. *)
Theorem get_callbacks_keys self callbacks :
  ∃ added,
    od_keys (get_callbacks self callbacks) = od_keys callbacks ++ added
    ∧ length added ≤ 3
    ∧ ∀ k, k ∈ added → ∃ r, k = fixed_key r ∧ configured self r = true.
Proof.
  unfold get_callbacks. cbv zeta.
  set (d1 := if is_Criterion (_criterion self)
                && negb (is_callback_exists callbacks ICriterionCallback)
             then _ else callbacks).
  set (d2 := if is_Optimizer (_optimizer self)
                && negb (is_callback_exists d1 IOptimizerCallback)
             then _ else d1).
  destruct (wire_step_keys
              (is_Criterion (_criterion self)
               && negb (is_callback_exists callbacks ICriterionCallback))
              "_criterion"
              (CriterionCallback
                 (IContrastiveRunner._projection_prefix (base self) +:+ "_1")
                 (IContrastiveRunner._projection_prefix (base self) +:+ "_2")
                 (IContrastiveRunner._loss_key (base self)))
              callbacks) as (a1 & E1 & H1).
  fold d1 in E1.
  destruct (wire_step_keys
              (is_Optimizer (_optimizer self)
               && negb (is_callback_exists d1 IOptimizerCallback))
              "_optimizer"
              (OptimizerCallback (IContrastiveRunner._loss_key (base self)))
              d1) as (a2 & E2 & H2).
  fold d2 in E2.
  destruct (wire_step_keys
              (is_Scheduler_or_Plateau (_scheduler self)
               && negb (is_callback_exists d2 ISchedulerCallback))
              "_scheduler"
              (SchedulerCallback (_valid_loader self) (_valid_metric self))
              d2) as (a3 & E3 & H3).
  exists (a1 ++ a2 ++ a3). rewrite E3, E2, E1, <- !app_assoc.
  split; [reflexivity|]. split.
  - rewrite !length_app.
    destruct H1 as [-> | [-> _]], H2 as [-> | [-> _]], H3 as [-> | [-> _]];
      simpl; lia.
  - intros k Hin.
    apply elem_of_app in Hin as [Hin | Hin];
      [|apply elem_of_app in Hin as [Hin | Hin]].
    + destruct H1 as [-> | [-> Hc]]; [by apply elem_of_nil in Hin|].
      apply list_elem_of_singleton in Hin as ->.
      exists ICriterionCallback. split; [done|].
      by apply andb_true_iff in Hc as [Hc _].
    + destruct H2 as [-> | [-> Hc]]; [by apply elem_of_nil in Hin|].
      apply list_elem_of_singleton in Hin as ->.
      exists IOptimizerCallback. split; [done|].
      by apply andb_true_iff in Hc as [Hc _].
    + destruct H3 as [-> | [-> Hc]]; [by apply elem_of_nil in Hin|].
      apply list_elem_of_singleton in Hin as ->.
      exists ISchedulerCallback. split; [done|].
      by apply andb_true_iff in Hc as [Hc _].
Qed.

(** X19: a callback dictionary without repeated keys stays one: stage
    setup never produces two entries under the same key. *)
Theorem get_callbacks_NoDup self callbacks :
  NoDup (od_keys callbacks) → NoDup (od_keys (get_callbacks self callbacks)).
Proof.
  intros Hnd. unfold get_callbacks. cbv zeta.
  by do 3 apply wire_step_NoDup.
Qed.

(** X20: when an optimizer is configured and no registered callback
    fills the optimizer role, the entry under _optimizer after stage
    setup is the default optimizer callback on the runner's loss key;
    likewise the entry under _scheduler is the default scheduler callback
    on the runner's validation loader and metric.  This holds whatever
    keys the caller used. *)
Theorem get_callbacks_default_entries self callbacks :
  (is_Optimizer (_optimizer self) = true →
   is_callback_exists callbacks IOptimizerCallback = false →
   od_get "_optimizer" (get_callbacks self callbacks)
   = Some (OptimizerCallback (IContrastiveRunner._loss_key (base self))))
  ∧ (is_Scheduler_or_Plateau (_scheduler self) = true →
     is_callback_exists callbacks ISchedulerCallback = false →
     od_get "_scheduler" (get_callbacks self callbacks)
     = Some (SchedulerCallback (_valid_loader self) (_valid_metric self))).
Proof.
  unfold get_callbacks. cbv zeta.
  set (d1 := if is_Criterion (_criterion self)
                && negb (is_callback_exists callbacks ICriterionCallback)
             then _ else callbacks).
  assert (Hd1 : ∀ r, r ≠ ICriterionCallback →
                     is_callback_exists callbacks r = false →
                     is_callback_exists d1 r = false).
  { intros r Hr Hnone. subst d1.
    destruct (is_Criterion (_criterion self)
              && negb (is_callback_exists callbacks ICriterionCallback)); [|done].
    rewrite is_callback_exists_setitem_none by done. by destruct r. }
  split.
  - intros Hopt Hnone.
    rewrite wire_step_get by (intros _; discriminate).
    rewrite Hopt, (Hd1 IOptimizerCallback) by done.
    cbn [andb negb]. apply od_get_setitem_eq.
  - intros Hsch Hnone.
    set (d2 := if is_Optimizer (_optimizer self)
                  && negb (is_callback_exists d1 IOptimizerCallback)
               then _ else d1).
    assert (is_callback_exists d2 ISchedulerCallback = false) as Hd2.
    { subst d2.
      destruct (is_Optimizer (_optimizer self)
                && negb (is_callback_exists d1 IOptimizerCallback)).
      - rewrite is_callback_exists_setitem_none; [done|]. by apply Hd1.
      - by apply Hd1. }
    rewrite Hsch, Hd2. cbn [andb negb]. apply od_get_setitem_eq.
Qed.

(** X21: when the caller uses none of the fixed keys, a role is filled
    after stage setup exactly if its component is configured or the
    caller had filled it: no configured component is left without a
    callback, and no role is filled for an absent component. *)
Theorem get_callbacks_covers self callbacks r :
  (∀ q, fixed_key q ∉ od_keys callbacks) →
  is_callback_exists (get_callbacks self callbacks) r
  = configured self r || is_callback_exists callbacks r.
Proof.
  intros Hfresh. rewrite (get_callbacks_fresh _ _ Hfresh).
  rewrite is_callback_exists_app. unfold auto_wired, needs_default.
  destruct r; cbn [configured];
    destruct (configured self ICriterionCallback) eqn:Cc,
             (configured self IOptimizerCallback) eqn:Co,
             (configured self ISchedulerCallback) eqn:Cs;
    cbn [configured] in Cc, Co, Cs; rewrite ?Cc, ?Co, ?Cs;
    destruct (is_callback_exists callbacks ICriterionCallback),
             (is_callback_exists callbacks IOptimizerCallback),
             (is_callback_exists callbacks ISchedulerCallback);
    reflexivity.
Qed.

(** X22: a caller who registered a callback for every configured
    component gets the registered callbacks back unchanged, fixed keys
    or not: nothing is added and nothing is overwritten. *)
Theorem get_callbacks_all_supplied self callbacks :
  (∀ r, configured self r = true → is_callback_exists callbacks r = true) →
  get_callbacks self callbacks = callbacks.
Proof.
  intros Hall. apply get_callbacks_fixed. intros r. unfold needs_default.
  destruct (configured self r) eqn:Hc; [|done].
  by rewrite (Hall r Hc).
Qed.

End CallbackMore.

(** *** What stage setup injects *)





Section CallbackWiring.
Context {World : Type}.
Implicit Types (self : ContrastiveRunner.t World).
Implicit Types (callbacks d : list (string * Callback)) (r : ICallback).

Import ContrastiveRunner.




End CallbackWiring.


(** A role filled only by a callback that sits under another role's
    fixed key can lose it: the default criterion callback overwrites the
    caller's optimizer callback, and a default optimizer callback is then
    injected although an optimizer callback had been registered. *)
Lemma filler_under_fixed_key_replaced :
  ContrastiveRunner.is_callback_exists optimizer_under_criterion_key IOptimizerCallback
  = true
  ∧ od_get "_optimizer"
      (ContrastiveRunner.get_callbacks
         (contrastive_runner (Some (Criterion "NTXentLoss")) (Some (Optimizer "Adam")) None)
         optimizer_under_criterion_key)
    = Some (OptimizerCallback "loss")
  ∧ od_keys
      (ContrastiveRunner.get_callbacks
         (contrastive_runner (Some (Criterion "NTXentLoss")) (Some (Optimizer "Adam")) None)
         optimizer_under_criterion_key)
    = ["_criterion"; "_optimizer"].
Proof. repeat split; reflexivity. Qed.

(** *** The further properties on sample inputs *)

Lemma process_batch_lookup_witness :
  ∃ d,
    IContrastiveRunner._process_batch (default_runner pair_model)
      (Flat [VInt 1; VInt 2; VInt 0]) = Ok (Keyed d)
    ∧ d !! "target" = Some (VInt 0)
    ∧ d !! "aug_right" = Some (VInt 2)
    ∧ d !! "aug_left" = Some (VInt 1)
    ∧ size d = 3.
Proof.
  destruct (process_batch_lookup (default_runner pair_model) (VInt 1) (VInt 2) (VInt 0))
    as (d & Hrun & Ht & Hr & Hl & Hsize).
  exists d. split; [exact Hrun|]. split; [exact Ht|].
  split; [apply Hr; distinct_keys|].
  split; [apply Hl; distinct_keys|].
  apply Hsize; distinct_keys.
Defined.

Lemma process_batch_target_aliases_view_witness :
  IContrastiveRunner._process_batch target_on_left_runner
    (Flat [VInt 1; VInt 2; VInt 0])
  = Ok (Keyed (<["aug_right" := VInt 2]> {["aug_left" := VInt 0]}))
  ∧ IContrastiveRunner._process_batch target_on_right_runner
      (Flat [VInt 1; VInt 2; VInt 0])
    = Ok (Keyed (<["aug_right" := VInt 0]> {["aug_left" := VInt 1]})).
Proof.
  split.
  - apply (process_batch_target_aliases_view target_on_left_runner
             (VInt 1) (VInt 2) (VInt 0)).
    reflexivity.
  - apply (process_batch_target_aliases_view target_on_right_runner
             (VInt 1) (VInt 2) (VInt 0)).
    reflexivity.
Defined.

Lemma forward_missing_view_witness :
  IContrastiveRunner.forward (default_runner pair_model)
    (dict_display [("aug_right", VInt 2)]) 0
  = (Raise (KeyError "aug_left"), 0)
  ∧ IContrastiveRunner.forward (default_runner pair_model)
      (dict_display [("aug_left", VInt 1)]) 0
    = (Raise (KeyError "aug_right"), 1).
Proof.
  split.
  - apply (forward_missing_view (default_runner pair_model)
             (dict_display [("aug_right", VInt 2)]) 0).
    reflexivity.
  - destruct (forward_missing_view (default_runner pair_model)
                (dict_display [("aug_left", VInt 1)]) 0) as [_ Hright].
    apply (Hright (VInt 1)
             (VTuple [VTuple [VStr "emb"; VInt 1]; VTuple [VStr "proj"; VInt 1]]) 1);
      reflexivity.
Defined.

Lemma handle_batch_model_failure_witness :
  IContrastiveRunner.handle_batch (default_runner failing) plain_batch 0
  = (Raise (Raised "RuntimeError"), default_runner failing, 1)
  ∧ IContrastiveRunner.handle_batch (default_runner crashing_model) plain_batch 0
    = (Raise (Raised "RuntimeError"), default_runner crashing_model, 2).
Proof.
  split.
  - destruct (handle_batch_model_failure (default_runner failing) plain_batch 0
                (VInt 1) eq_refl) as [Hleft _].
    apply Hleft. reflexivity.
  - destruct (handle_batch_model_failure (default_runner crashing_model) plain_batch 0
                (VInt 1) eq_refl) as [_ Hright].
    apply (Hright (VTuple [VStr "emb"; VStr "proj"]) 1 (VInt 2)); reflexivity.
Defined.

Lemma forward_frame_witness :
  IContrastiveRunner.forward (default_runner pair_model)
    (<["index" := VInt 41]> plain_batch) 0
  = match IContrastiveRunner.forward (default_runner pair_model) plain_batch 0 with
    | (Ok out, w') => (Ok (<["index" := VInt 41]> out), w')
    | (Raise e, w') => (Raise e, w')
    end.
Proof.
  apply (forward_frame (default_runner pair_model) plain_batch 0 "index" (VInt 41)).
  - not_listed.
  - not_listed.
Defined.

Lemma forward_same_prefix_witness :
  IContrastiveRunner.forward one_prefix_runner plain_batch 0
  = (Ok (<["features_right" := VTuple [VStr "emb"; VInt 2]]>
          (<["features_left" := VTuple [VStr "emb"; VInt 1]]> plain_batch)), 2).
Proof.
  apply (forward_same_prefix one_prefix_runner plain_batch 0
           (VInt 1) (VTuple [VTuple [VStr "emb"; VInt 1]; VTuple [VStr "proj"; VInt 1]])
           1 (VTuple [VStr "emb"; VInt 1]) (VTuple [VStr "proj"; VInt 1])
           (VInt 2) (VTuple [VTuple [VStr "emb"; VInt 2]; VTuple [VStr "proj"; VInt 2]])
           2 (VTuple [VStr "emb"; VInt 2]) (VTuple [VStr "proj"; VInt 2]));
    reflexivity.
Defined.

Lemma forward_adds_four_witness :
  ∃ out,
    IContrastiveRunner.forward (default_runner pair_model) plain_batch 0 = (Ok out, 2)
    ∧ size out = size plain_batch + 4.
Proof.
  eexists. split; [reflexivity|].
  apply (forward_adds_four (default_runner pair_model) plain_batch 0 _ 2).
  - reflexivity.
  - distinct_keys.
  - intros k Hk.
    repeat (apply elem_of_cons in Hk as [-> | Hk]; [reflexivity|]).
    by apply elem_of_nil in Hk.
Defined.

Lemma forward_idempotent_witness :
  ∃ out,
    IContrastiveRunner.forward (default_runner frozen_model) plain_batch 0 = (Ok out, 0)
    ∧ IContrastiveRunner.forward (default_runner frozen_model) out 0 = (Ok out, 0).
Proof.
  eexists. split; [reflexivity|].
  refine (proj2 (forward_idempotent (default_runner frozen_model)
                   (fun x => Ok (VTuple [VTuple [VStr "emb"; x]; VTuple [VStr "proj"; x]]))
                   plain_batch 0 _ 0 _ _ _ _)).
  - intros x w0. reflexivity.
  - distinct_keys.
  - distinct_keys.
  - reflexivity.
Defined.

Lemma predict_batch_agrees_witness :
  ∃ out,
    predict_batch cpu_sync (contrastive_runner None None None) (Flat tensor_triple) 1
    = (Ok out, 3)
    ∧ out !! "target" = Some (VTensor [VScalar 0])
    ∧ out !! "embedding_right" = Some (VTuple [VStr "emb"; VTensor [VScalar 2]]).
Proof.
  eexists. split.
  - eapply (predict_batch_agrees cpu_sync sized_hook (contrastive_runner None None None)
              (Flat tensor_triple) 0).
    + intros d0 wa. reflexivity.
    + intros s wa r s' wb. unfold sized_hook.
      destruct (IContrastiveRunner.batch s); case_bool_decide;
        intros Hrun; by inversion Hrun.
    + reflexivity.
    + reflexivity.
    + reflexivity.
    + reflexivity.
  - split; reflexivity.
Defined.

Lemma predict_batch_shape_error_witness :
  predict_batch cpu_sync (contrastive_runner None None None)
    (Flat [VInt 1; VInt 2; VInt 0; VInt 5]) 0
  = (Raise AssertionError, 0).
Proof.
  apply (predict_batch_shape_error cpu_sync (contrastive_runner None None None)
           [VInt 1; VInt 2; VInt 0; VInt 5] 0).
  simpl. lia.
Defined.

Lemma get_callbacks_untouched_witness :
  od_get "accuracy"
    (ContrastiveRunner.get_callbacks
       (contrastive_runner (Some (Criterion "NTXentLoss")) (Some (Optimizer "Adam"))
                           (Some ReduceLROnPlateau))
       reserved_name_taken)
  = od_get "accuracy" reserved_name_taken.
Proof.
  apply (get_callbacks_untouched
           (contrastive_runner (Some (Criterion "NTXentLoss")) (Some (Optimizer "Adam"))
                               (Some ReduceLROnPlateau))
           reserved_name_taken "accuracy").
  intros [] _; discriminate.
Defined.

Lemma get_callbacks_NoDup_witness :
  NoDup (od_keys
           (ContrastiveRunner.get_callbacks
              (contrastive_runner (Some (Criterion "NTXentLoss"))
                                  (Some (Optimizer "Adam")) (Some ReduceLROnPlateau))
              reserved_name_taken)).
Proof.
  apply (get_callbacks_NoDup
           (contrastive_runner (Some (Criterion "NTXentLoss")) (Some (Optimizer "Adam"))
                               (Some ReduceLROnPlateau))
           reserved_name_taken).
  apply NoDup_cons. split; [not_listed|]. apply NoDup_singleton.
Defined.

Lemma get_callbacks_default_entries_witness :
  od_get "_optimizer"
    (ContrastiveRunner.get_callbacks
       (contrastive_runner (Some (Criterion "NTXentLoss")) (Some (Optimizer "Adam"))
                           (Some ReduceLROnPlateau))
       two_criteria)
  = Some (OptimizerCallback "loss")
  ∧ od_get "_scheduler"
      (ContrastiveRunner.get_callbacks
         (contrastive_runner (Some (Criterion "NTXentLoss")) (Some (Optimizer "Adam"))
                             (Some ReduceLROnPlateau))
         two_criteria)
    = Some (SchedulerCallback (Some "valid") (Some "loss")).
Proof.
  destruct (get_callbacks_default_entries
              (contrastive_runner (Some (Criterion "NTXentLoss")) (Some (Optimizer "Adam"))
                                  (Some ReduceLROnPlateau))
              two_criteria) as [Hopt Hsch].
  split; [apply Hopt | apply Hsch]; reflexivity.
Defined.

Lemma get_callbacks_covers_witness :
  ContrastiveRunner.is_callback_exists
    (ContrastiveRunner.get_callbacks
       (contrastive_runner (Some (Criterion "NTXentLoss")) (Some (Optimizer "Adam")) None)
       metric_only)
    IOptimizerCallback
  = true
  ∧ ContrastiveRunner.is_callback_exists
      (ContrastiveRunner.get_callbacks
         (contrastive_runner (Some (Criterion "NTXentLoss")) (Some (Optimizer "Adam")) None)
         metric_only)
      ISchedulerCallback
    = false.
Proof.
  split.
  - apply (get_callbacks_covers
             (contrastive_runner (Some (Criterion "NTXentLoss")) (Some (Optimizer "Adam"))
                                 None)
             metric_only IOptimizerCallback).
    intros []; not_listed.
  - apply (get_callbacks_covers
             (contrastive_runner (Some (Criterion "NTXentLoss")) (Some (Optimizer "Adam"))
                                 None)
             metric_only ISchedulerCallback).
    intros []; not_listed.
Defined.

Lemma get_callbacks_all_supplied_witness :
  ContrastiveRunner.get_callbacks
    (contrastive_runner (Some (Criterion "NTXentLoss")) None None) two_criteria
  = two_criteria.
Proof.
  apply (get_callbacks_all_supplied
           (contrastive_runner (Some (Criterion "NTXentLoss")) None None) two_criteria).
  intros [] H; vm_compute in H |- *; congruence.
Defined.

(** ** The dataset and the runner together *)

Lemma record_key_not_view p k :
  k ∈ ["aug1"; "aug2"; "target"] → k ≠ key_left p.
Proof.
  intros Hk Heq. unfold key_left in Heq.
  apply (f_equal String.list_ascii_of_string) in Heq.
  rewrite list_ascii_of_string_app in Heq.
  apply (f_equal reverse) in Heq. rewrite reverse_app in Heq.
  repeat (apply elem_of_cons in Hk as [-> | Hk];
          [vm_compute in Heq; discriminate Heq|]).
  by apply elem_of_nil in Hk.
Qed.

Section Together.
Context {World : Type}.
Implicit Types (self : IContrastiveRunner.t World) (w : World).
Implicit Types (batch out : gmap string value).

Import IContrastiveRunner.

(** X23: the records of the dataset do not fit the runner.  A batch
    whose keys are aug1, aug2 and target, as the dataset's records have
    them, passes the batch start unchanged and then makes the forward
    pass raise KeyError for the left view key, before the model is
    called; this is so for every choice of the runner's key names. *)
Theorem record_keys_fail_forward self batch w :
  dom batch = {["aug1"; "aug2"; "target"]} →
  _process_batch self (Keyed batch) = Ok (Keyed batch)
  ∧ forward self batch w
    = (Raise (KeyError (key_left (_augemention_prefix self))), w).
Proof.
  intros Hdom. split; [reflexivity|].
  apply forward_missing_view. apply not_elem_of_dom. rewrite Hdom.
  intros Hin.
  apply (record_key_not_view (_augemention_prefix self)
           (key_left (_augemention_prefix self))); [|done].
  set_solver.
Qed.

(** X24: a whole step on a flat batch.  Take a parent's hook that
    leaves the runner as it finds it, seven different keys (the target
    key, the two view keys, the four enrichment keys) and a model that
    returns two items for each view.  If the batch start returns, the
    batch step that follows succeeds and stores a batch of exactly seven
    entries: the target, the two views as they came, and the embedding
    and projection of each view. *)
Theorem flat_batch_step
    (hook : IContrastiveRunner.t World → World
            → result unit * IContrastiveRunner.t World * World)
    self v0 v1 v2 w0 s1 w o1 w1 e1 p1 o2 w2 e2 p2 :
  batch self = Flat [v0; v1; v2] →
  (∀ s wa r s' wb, hook s wa = (r, s', wb) → s' = s) →
  on_batch_start hook self w0 = (Ok tt, s1, w) →
  _target_key self ≠ key_left (_augemention_prefix self) →
  _target_key self ≠ key_right (_augemention_prefix self) →
  _target_key self ∉ enrichment_keys (_projection_prefix self) (_embedding_prefix self) →
  _augemention_prefix self ≠ _projection_prefix self →
  _augemention_prefix self ≠ _embedding_prefix self →
  _projection_prefix self ≠ _embedding_prefix self →
  model self v0 w = (Ok o1, w1) →
  unpack2 o1 = Ok (e1, p1) →
  model self v1 w1 = (Ok o2, w2) →
  unpack2 o2 = Ok (e2, p2) →
  ∃ d s2 out,
    batch s1 = Keyed d
    ∧ handle_batch s1 d w = (Ok tt, s2, w2)
    ∧ batch s2 = Keyed out
    ∧ size out = 7
    ∧ out !! _target_key self = Some v2
    ∧ out !! key_left (_augemention_prefix self) = Some v0
    ∧ out !! key_right (_augemention_prefix self) = Some v1
    ∧ out !! key_left (_embedding_prefix self) = Some e1
    ∧ out !! key_right (_embedding_prefix self) = Some e2
    ∧ out !! key_left (_projection_prefix self) = Some p1
    ∧ out !! key_right (_projection_prefix self) = Some p2.
Proof.
  intros Hb Hhook Hstart Htl Htr Htn Hap Hae Hpe Hm1 Hu1 Hm2 Hu2.
  unfold on_batch_start in Hstart. rewrite Hb in Hstart.
  cbn [_process_batch] in Hstart. apply Hhook in Hstart. subst s1.
  pose proof (key_left_ne_right (_augemention_prefix self) (_augemention_prefix self)).
  pose proof (key_left_ne_right (_augemention_prefix self) (_projection_prefix self)).
  pose proof (key_left_ne_right (_augemention_prefix self) (_embedding_prefix self)).
  pose proof (key_left_ne_right (_projection_prefix self) (_augemention_prefix self)).
  pose proof (key_left_ne_right (_projection_prefix self) (_projection_prefix self)).
  pose proof (key_left_ne_right (_projection_prefix self) (_embedding_prefix self)).
  pose proof (key_left_ne_right (_embedding_prefix self) (_augemention_prefix self)).
  pose proof (key_left_ne_right (_embedding_prefix self) (_projection_prefix self)).
  pose proof (key_left_ne_right (_embedding_prefix self) (_embedding_prefix self)).
  assert (key_left (_augemention_prefix self) ≠ key_left (_projection_prefix self))
    by (intros ?%key_left_inj; done).
  assert (key_left (_augemention_prefix self) ≠ key_left (_embedding_prefix self))
    by (intros ?%key_left_inj; done).
  assert (key_left (_projection_prefix self) ≠ key_left (_embedding_prefix self))
    by (intros ?%key_left_inj; done).
  assert (key_right (_augemention_prefix self) ≠ key_right (_projection_prefix self))
    by (intros ?%key_right_inj; done).
  assert (key_right (_augemention_prefix self) ≠ key_right (_embedding_prefix self))
    by (intros ?%key_right_inj; done).
  assert (key_right (_projection_prefix self) ≠ key_right (_embedding_prefix self))
    by (intros ?%key_right_inj; done).
  unfold enrichment_keys in Htn.
  apply not_elem_of_cons in Htn as [Ht1 Htn].
  apply not_elem_of_cons in Htn as [Ht2 Htn].
  apply not_elem_of_cons in Htn as [Ht3 Htn].
  apply not_elem_of_cons in Htn as [Ht4 _].
  set (d := dict_display [(key_left (_augemention_prefix self), v0);
                          (key_right (_augemention_prefix self), v1);
                          (_target_key self, v2)]).
  set (out := dict_update d [(key_left (_projection_prefix self), p1);
                             (key_right (_projection_prefix self), p2);
                             (key_left (_embedding_prefix self), e1);
                             (key_right (_embedding_prefix self), e2)]).
  assert (Hl : d !! key_left (_augemention_prefix self) = Some v0).
  { subst d. unfold dict_display. cbn [dict_update foldl fst snd]. by simplify_map_eq. }
  assert (Hr : d !! key_right (_augemention_prefix self) = Some v1).
  { subst d. unfold dict_display. cbn [dict_update foldl fst snd]. by simplify_map_eq. }
  exists d, (set_batch self (Keyed out)), out.
  split; [reflexivity|].
  split.
  { unfold handle_batch, forward.
    rewrite (process_input_run (set_batch self (Keyed d)) d w
               v0 o1 w1 e1 p1 v1 o2 w2 e2 p2) by done.
    cbn [_projection_prefix _embedding_prefix set_batch]. fold out.
    rewrite union_absorbs; [reflexivity|].
    subst out. rewrite dom_dict_update. set_solver. }
  split; [reflexivity|].
  subst out d. unfold dict_display. cbn [dict_update foldl fst snd].
  split.
  { rewrite !map_size_insert_None, map_size_empty; [done|..]; by simplify_map_eq. }
  repeat split; by simplify_map_eq.
Qed.

End Together.

Lemma record_keys_fail_forward_witness :
  IContrastiveRunner._process_batch (default_runner pair_model)
    (Keyed (dict_display [("aug1", VInt 1); ("aug2", VInt 2); ("target", VInt 0)]))
  = Ok (Keyed (dict_display [("aug1", VInt 1); ("aug2", VInt 2); ("target", VInt 0)]))
  ∧ IContrastiveRunner.forward (default_runner pair_model)
      (dict_display [("aug1", VInt 1); ("aug2", VInt 2); ("target", VInt 0)]) 0
    = (Raise (KeyError "aug_left"), 0).
Proof.
  apply (record_keys_fail_forward (default_runner pair_model)
           (dict_display [("aug1", VInt 1); ("aug2", VInt 2); ("target", VInt 0)]) 0).
  vm_compute. reflexivity.
Defined.

Lemma sized_hook_keeps_runner s wa r s' wb :
  sized_hook s wa = (r, s', wb) → s' = s.
Proof.
  unfold sized_hook.
  destruct (IContrastiveRunner.batch s); case_bool_decide;
    intros Hrun; by inversion Hrun.
Qed.

Lemma flat_batch_step_witness :
  ∃ d s2 out,
    IContrastiveRunner.batch
      (IContrastiveRunner.set_batch (default_runner pair_model)
         (Keyed (dict_display [("aug_left", VTensor [VScalar 1]);
                               ("aug_right", VTensor [VScalar 2]);
                               ("target", VTensor [VScalar 0])])))
    = Keyed d
    ∧ IContrastiveRunner.handle_batch
        (IContrastiveRunner.set_batch (default_runner pair_model)
           (Keyed (dict_display [("aug_left", VTensor [VScalar 1]);
                                 ("aug_right", VTensor [VScalar 2]);
                                 ("target", VTensor [VScalar 0])])))
        d 1
      = (Ok tt, s2, 3)
    ∧ IContrastiveRunner.batch s2 = Keyed out
    ∧ size out = 7
    ∧ out !! "target" = Some (VTensor [VScalar 0])
    ∧ out !! "aug_left" = Some (VTensor [VScalar 1])
    ∧ out !! "aug_right" = Some (VTensor [VScalar 2])
    ∧ out !! "embedding_left" = Some (VTuple [VStr "emb"; VTensor [VScalar 1]])
    ∧ out !! "embedding_right" = Some (VTuple [VStr "emb"; VTensor [VScalar 2]])
    ∧ out !! "projection_left" = Some (VTuple [VStr "proj"; VTensor [VScalar 1]])
    ∧ out !! "projection_right" = Some (VTuple [VStr "proj"; VTensor [VScalar 2]]).
Proof.
  apply (flat_batch_step sized_hook
           (IContrastiveRunner.set_batch (default_runner pair_model) (Flat tensor_triple))
           (VTensor [VScalar 1]) (VTensor [VScalar 2]) (VTensor [VScalar 0]) 0
           (IContrastiveRunner.set_batch (default_runner pair_model)
              (Keyed (dict_display [("aug_left", VTensor [VScalar 1]);
                                    ("aug_right", VTensor [VScalar 2]);
                                    ("target", VTensor [VScalar 0])])))
           1
           (VTuple [VTuple [VStr "emb"; VTensor [VScalar 1]];
                    VTuple [VStr "proj"; VTensor [VScalar 1]]]) 2
           (VTuple [VStr "emb"; VTensor [VScalar 1]])
           (VTuple [VStr "proj"; VTensor [VScalar 1]])
           (VTuple [VTuple [VStr "emb"; VTensor [VScalar 2]];
                    VTuple [VStr "proj"; VTensor [VScalar 2]]]) 3
           (VTuple [VStr "emb"; VTensor [VScalar 2]])
           (VTuple [VStr "proj"; VTensor [VScalar 2]]));
    first [reflexivity | apply sized_hook_keeps_runner | distinct_keys | not_listed].
Defined.
